(** * Scooter rental service: pricing, factory, approval chain, rental registry

    A shallow embedding of [scooter_module.py], [station_module.py] and
    [system_module.py].

    - Python [float] is IEEE-754 binary64 with round-to-nearest-even; it is
      modelled by the kernel's primitive [float], whose operations are the
      same binary64 operations.  An [int] literal compared with a float
      ([hours < 4], [cost <= 1000], [0 <= value <= 100]) is compared exactly,
      which for these small literals is the comparison with the float of the
      same value.
    - Objects that are shared by reference and mutated (scooters, handlers)
      live in stores indexed by locations; dictionaries are finite maps.
    - [print] and the logging mixins are modelled as a list of structured
      output events returned next to the result. *)

From Stdlib Require Import ZArith String Ascii Bool List Floats.
From stdpp Require Import base option list functions gmap strings relations.

Set Warnings "-inexact-float".
Local Open Scope string_scope.
Local Open Scope list_scope.

(** ** Python values shared by the three modules *)

Module python.

(** What a keyword argument typed [Any] may carry in this program. *)
Inductive value :=
| VFloat (x : float)
| VStr (s : string).

(** The text of every [ValueError] the program raises, by message. *)
Inductive message :=
| InvalidBatteryLevel                          (* battery level must be within 0-100% *)
| UnknownVariant (scooter_type : string)       (* unknown scooter type *)
| MissingParameter (param scooter_type : string) (* required parameter absent *)
| StationNotFound (station_id : string)
| ScooterNotFound (scooter_id station_id : string)
| ScooterNotAtStation (scooter_id : string)
| ScooterUnavailable (scooter_id : string)
| RentalNotFound (rental_id : string)
| StationExists (station_id : string)
| ClientExists (client_id : string).

(** [TypeError]s raised by the interpreter when a call does not fit the
    callee's signature. *)
Inductive call_error :=
| UnexpectedKeyword
| MissingArgument (param : string)
| AbstractClass.

Inductive exn :=
| ValueError (msg : message)
| TypeError (why : call_error).

Inductive result (A : Type) :=
| Ok (a : A)
| Raise (e : exn).
Arguments Ok {A} a.
Arguments Raise {A} e.

(** [str.lower], for the strings of this model (sequences of bytes): the
    letters A-Z are mapped to a-z and every other byte is kept.  Python
    also maps letters outside ASCII, but none of them to a string of ASCII
    letters among those of "city", "off_road" and "foldable", so the lookup
    of a tag in the registry is the same. *)
Definition lower_ascii (c : ascii) : ascii :=
  let n := nat_of_ascii c in
  if (65 <=? n)%nat && (n <=? 90)%nat then ascii_of_nat (n + 32) else c.

Fixpoint lower (s : string) : string :=
  match s with
  | EmptyString => EmptyString
  | String c s' => String (lower_ascii c) (lower s')
  end.

(** Object references. *)
Abbreviation loc := nat.

(** What the program writes to the console, one event per [print],
    carrying the values interpolated into the text. *)
Inductive output :=
| log_rented (model : string) (hours cost : float)
| notify_rented (model : string) (cost : float)
| operator_approved (rental_id : string)
| manager_approved (rental_id : string) (cost : float)
| admin_approved (rental_id : string)
| rental_changed (rental_id : string) (new_hours cost : float).

End python.

(** ** scooter_module.py *)

Module scooter_module.
Import python.

(** The classes created under the metaclass [ScooterMeta]. *)
Inductive py_class :=
| cls_Scooter
| cls_CityScooter
| cls_OffRoadScooter
| cls_FoldableScooter.

Definition class_name (c : py_class) : string :=
  match c with
  | cls_Scooter => "Scooter"
  | cls_CityScooter => "CityScooter"
  | cls_OffRoadScooter => "OffRoadScooter"
  | cls_FoldableScooter => "FoldableScooter"
  end.

(** [ScooterMeta.__new__]: every class but the base registers itself. *)
Definition ScooterMeta_new (new_cls : py_class)
    (_registry : gmap string py_class) : gmap string py_class :=
  let name := class_name new_cls in
  if negb (String.eqb name "Scooter") then
    if String.eqb name "CityScooter" then <["city" := new_cls]> _registry
    else if String.eqb name "OffRoadScooter" then <["off_road" := new_cls]> _registry
    else if String.eqb name "FoldableScooter" then <["foldable" := new_cls]> _registry
    else <[lower name := new_cls]> _registry
  else _registry.

(** The registry once the module has been imported: the four class
    statements run in source order. *)
Definition _registry : gmap string py_class :=
  ScooterMeta_new cls_FoldableScooter
    (ScooterMeta_new cls_OffRoadScooter
      (ScooterMeta_new cls_CityScooter
        (ScooterMeta_new cls_Scooter ∅))).

(** [ScooterMeta.get_class] *)
Definition get_class (scooter_type : string) : option py_class :=
  _registry !! lower scooter_type.

(** The subclass-specific attribute: [_max_speed], [_tire_type], [_weight]. *)
Inductive Variant :=
| City (max_speed : value)
| OffRoad (tire_type : value)
| Foldable (weight : value).

Record Scooter := mkScooter {
  scooter_id : string;
  model : string;
  battery_level : float;
  hourly_rate : float;
  is_available : bool;
  variant : Variant
}.

(** [Scooter.__init__] followed by the subclass's own assignment. *)
Definition Scooter_init (scooter_id model : string)
    (battery_level hourly_rate : float) (v : Variant) : Scooter :=
  {| scooter_id := scooter_id;
     model := model;
     battery_level := battery_level;
     hourly_rate := hourly_rate;
     is_available := true;
     variant := v |}.

Definition CityScooter (scooter_id model : string)
    (battery_level hourly_rate : float) (max_speed : value) : Scooter :=
  Scooter_init scooter_id model battery_level hourly_rate (City max_speed).

Definition OffRoadScooter (scooter_id model : string)
    (battery_level hourly_rate : float) (tire_type : value) : Scooter :=
  Scooter_init scooter_id model battery_level hourly_rate (OffRoad tire_type).

Definition FoldableScooter (scooter_id model : string)
    (battery_level hourly_rate : float) (weight : value) : Scooter :=
  Scooter_init scooter_id model battery_level hourly_rate (Foldable weight).

(** [0 <= value <= 100] *)
Definition battery_in_range (value : float) : bool :=
  (0 <=? value)%float && (value <=? 100)%float.

(** The [battery_level] setter: the outcome and the object afterwards. *)
Definition set_battery_level (value : float) (self : Scooter)
    : result unit * Scooter :=
  if negb (battery_in_range value) then
    (Raise (ValueError InvalidBatteryLevel), self)
  else
    (Ok tt,
     {| scooter_id := scooter_id self;
        model := model self;
        battery_level := value;
        hourly_rate := hourly_rate self;
        is_available := is_available self;
        variant := variant self |}).

(** The [is_available] setter. *)
Definition set_is_available (value : bool) (self : Scooter) : Scooter :=
  {| scooter_id := scooter_id self;
     model := model self;
     battery_level := battery_level self;
     hourly_rate := hourly_rate self;
     is_available := value;
     variant := variant self |}.

(** [calculate_rental_cost], dispatched on the object's class. *)
Definition calculate_rental_cost (self : Scooter) (hours : float) : float :=
  let base_cost := (hourly_rate self * hours)%float in
  match variant self with
  | City _ => if (3 <? hours)%float then (base_cost * 0.9)%float else base_cost
  | OffRoad _ => (base_cost * 1.15)%float
  | Foldable _ => (base_cost * 0.95)%float
  end.

(** [__lt__] and [__gt__] *)
Definition lt (self other : Scooter) : bool :=
  (hourly_rate self <? hourly_rate other)%float.
Definition gt (self other : Scooter) : bool :=
  (hourly_rate other <? hourly_rate self)%float.

(** The one parameter each constructor takes after the four common ones. *)
Definition own_param (c : py_class) : option (string * (value -> Variant)) :=
  match c with
  | cls_Scooter => None
  | cls_CityScooter => Some ("max_speed", City)
  | cls_OffRoadScooter => Some ("tire_type", OffRoad)
  | cls_FoldableScooter => Some ("weight", Foldable)
  end.

(** [scooter_class(scooter_id, model, battery_level, hourly_rate, **kwargs)]:
    the four positional arguments are bound first, every keyword must
    name a remaining parameter and every remaining parameter must be
    given, otherwise the interpreter raises [TypeError]. *)
Definition instantiate (c : py_class) (scooter_id model : string)
    (battery_level hourly_rate : float) (kwargs : gmap string value)
    : result Scooter :=
  match own_param c with
  | None => Raise (TypeError AbstractClass)
  | Some (param, mk) =>
    if bool_decide (dom kwargs ⊆ ({[ param ]} : gset string)) then
      match kwargs !! param with
      | Some v => Ok (Scooter_init scooter_id model battery_level hourly_rate (mk v))
      | None => Raise (TypeError (MissingArgument param))
      end
    else Raise (TypeError UnexpectedKeyword)
  end.

Definition required_params : gmap string (list string) :=
  <["city" := ["max_speed"]]>
    (<["off_road" := ["tire_type"]]>
      (<["foldable" := ["weight"]]> ∅)).

(** The validation loop: the first required parameter missing from
    [kwargs], if any. *)
Fixpoint first_missing (params : list string) (kwargs : gmap string value)
    : option string :=
  match params with
  | [] => None
  | param :: rest =>
    match kwargs !! param with
    | None => Some param
    | Some _ => first_missing rest kwargs
    end
  end.

(** [ScooterFactory.create_scooter] *)
Definition create_scooter (scooter_type scooter_id model : string)
    (battery_level hourly_rate : float) (kwargs : gmap string value)
    : result Scooter :=
  match get_class scooter_type with
  | None => Raise (ValueError (UnknownVariant scooter_type))
  | Some scooter_class =>
    match first_missing (default [] (required_params !! lower scooter_type)) kwargs with
    | Some param => Raise (ValueError (MissingParameter param scooter_type))
    | None => instantiate scooter_class scooter_id model battery_level hourly_rate kwargs
    end
  end.

(** The tags the registry knows, each with the keyword its class requires
    and the constructor it stands for. *)
Inductive registered
  : string -> string -> (string -> string -> float -> float -> value -> Scooter) -> Prop :=
| registered_city : registered "city" "max_speed" CityScooter
| registered_off_road : registered "off_road" "tire_type" OffRoadScooter
| registered_foldable : registered "foldable" "weight" FoldableScooter.

End scooter_module.

(** ** station_module.py *)

Module station_module.
Import python scooter_module.

Record Location := mkLocation {
  address : string;
  latitude : float;
  longitude : float
}.

(** A station holds references to its scooters: [_scooters] is a list of
    objects, so a scooter changed through one list is changed for every
    list that holds it. *)
Record RentalStation := mkStation {
  station_id : string;
  location : Location;
  capacity : Z;
  scooters : list loc
}.

(** The loop [for s in scooters: if s.scooter_id == scooter_id: ...]
    stops at the first scooter that carries the id. *)
Fixpoint find_by_id (objs : loc -> Scooter) (scooters : list loc)
    (scooter_id : string) : option loc :=
  match scooters with
  | [] => None
  | s :: rest =>
    if String.eqb (scooter_module.scooter_id (objs s)) scooter_id then Some s
    else find_by_id objs rest scooter_id
  end.

(** [get_available_scooters] *)
Definition get_available_scooters (objs : loc -> Scooter)
    (self : RentalStation) : list loc :=
  filter (fun s => is_available (objs s) = true) (scooters self).

(** [rent_scooter]: the result, the scooter store afterwards and the
    console output. *)
Definition rent_scooter (scooter_id : string) (hours : float)
    (self : RentalStation) (objs : loc -> Scooter)
    : result float * (loc -> Scooter) * list output :=
  match find_by_id objs (scooters self) scooter_id with
  | Some scooter =>
    if negb (is_available (objs scooter)) then
      (Raise (ValueError (ScooterUnavailable scooter_id)), objs, [])
    else
      let objs' := <[scooter := set_is_available false (objs scooter)]> objs in
      let cost := calculate_rental_cost (objs' scooter) hours in
      (Ok cost, objs',
       [log_rented (model (objs' scooter)) hours cost;
        notify_rented (model (objs' scooter)) cost])
  | None => (Raise (ValueError (ScooterNotAtStation scooter_id)), objs, [])
  end.

End station_module.

(** ** system_module.py *)

Module system_module.
Import python scooter_module station_module.

Inductive handler_class :=
| OperatorHandler
| ManagerHandler
| AdminHandler.

(** A handler object: its class and its mutable link. *)
Record Handler := mkHandler {
  class_of : handler_class;
  _next_handler : option loc
}.

(** The request dictionary built by [process_rental_change]. *)
Module request.
Record t := mk {
  rental_id : string;
  hours : float;
  scooter : loc;
  client_id : string
}.
End request.

(** A rental record, the dictionary stored under a rental id. *)
Module rental.
Record t := mk {
  client_id : string;
  station_id : string;
  scooter_id : string;
  hours : float;
  cost : float
}.
End rental.

Record client := mkClient {
  name : string;
  phone : string
}.

(** Handler objects are allocated at the end of the handler store; a
    fresh handler has no successor (the class attribute is [None]). *)
Definition new_handler (c : handler_class) (handlers : list Handler)
    : loc * list Handler :=
  (length handlers, handlers ++ [ {| class_of := c; _next_handler := None |} ]).

(** [set_next] writes the link of [self] and returns its argument. *)
Definition set_next (self handler : loc) (handlers : list Handler)
    : loc * list Handler :=
  (handler,
   alter (fun h => {| class_of := class_of h; _next_handler := Some handler |})
         self handlers).

(** [_setup_handlers]:
    [self._change_handler = OperatorHandler()] then
    [self._change_handler.set_next(ManagerHandler()).set_next(AdminHandler())]. *)
Definition _setup_handlers (handlers : list Handler) : loc * list Handler :=
  let '(operator, handlers) := new_handler OperatorHandler handlers in
  let '(manager, handlers) := new_handler ManagerHandler handlers in
  let '(linked, handlers) := set_next operator manager handlers in
  let '(admin, handlers) := new_handler AdminHandler handlers in
  let '(_, handlers) := set_next linked admin handlers in
  (operator, handlers).

(** [handle], by class.  The recursion follows [_next_handler] through the
    store, which may loop, so it is bounded by [fuel]; [None] stands for a
    call that has not returned within the bound.  The result is the
    returned boolean and the lines printed. *)
Fixpoint handle (fuel : nat) (handlers : list Handler)
    (objs : loc -> Scooter) (self : loc) (request : request.t)
    : option (bool * list output) :=
  match fuel with
  | O => None
  | S fuel' =>
    match handlers !! self with
    | None => None
    | Some h =>
      let delegate :=
        match _next_handler h with
        | Some next => handle fuel' handlers objs next request
        | None => Some (false, [])
        end in
      match class_of h with
      | OperatorHandler =>
        if (request.hours request <? 4)%float then
          Some (true, [operator_approved (request.rental_id request)])
        else delegate
      | ManagerHandler =>
        let scooter := objs (request.scooter request) in
        let cost := calculate_rental_cost scooter (request.hours request) in
        if (cost <=? 1000)%float then
          Some (true, [manager_approved (request.rental_id request) cost])
        else delegate
      | AdminHandler =>
        Some (true, [admin_approved (request.rental_id request)])
      end
    end
  end.

(** The program state: the two object stores, and the attributes of the
    one [RentalSystem] instance. *)
Record World := mkWorld {
  scooter_objs : loc -> Scooter;
  handler_objs : list Handler;
  stations : gmap string RentalStation;
  clients : gmap string client;
  rentals : gmap string rental.t;
  _change_handler : loc
}.

Definition with_rentals (rs : gmap string rental.t) (w : World) : World :=
  {| scooter_objs := scooter_objs w;
     handler_objs := handler_objs w;
     stations := stations w;
     clients := clients w;
     rentals := rs;
     _change_handler := _change_handler w |}.

Definition with_scooter_objs (objs : loc -> Scooter) (w : World) : World :=
  {| scooter_objs := objs;
     handler_objs := handler_objs w;
     stations := stations w;
     clients := clients w;
     rentals := rentals w;
     _change_handler := _change_handler w |}.

(** [self._change_handler.handle(request)]: the entry point of the chain. *)
Definition handle_change (fuel : nat) (w : World) (request : request.t)
    : option (bool * list output) :=
  handle fuel (handler_objs w) (scooter_objs w) (_change_handler w) request.

(** The authority levels, and the level named by an approval line. *)
Inductive authority :=
| Operator
| Manager
| Admin.

Definition approver (line : output) : option authority :=
  match line with
  | operator_approved _ => Some Operator
  | manager_approved _ _ => Some Manager
  | admin_approved _ => Some Admin
  | _ => None
  end.

Definition approving_authority (out : list output) : option authority :=
  head (omap approver out).

(** The decision of the chain and the level that took it. *)
Definition decision (fuel : nat) (w : World) (request : request.t)
    : option bool :=
  fst <$> handle_change fuel w request.

Definition approved_by (fuel : nat) (w : World) (request : request.t)
    : option authority :=
  handle_change fuel w request ≫= fun r => approving_authority r.2.

(** [RentalSystem.__init__], run over the stores as they are. *)
Definition RentalSystem_init (objs : loc -> Scooter) (handlers : list Handler)
    : World :=
  let '(root, handlers') := _setup_handlers handlers in
  {| scooter_objs := objs;
     handler_objs := handlers';
     stations := ∅;
     clients := ∅;
     rentals := ∅;
     _change_handler := root |}.

(** What the chain answers, level by level. *)
Definition chain_outcome (objs : loc -> Scooter) (request : request.t)
    : bool * list output :=
  let rental_id := request.rental_id request in
  let cost := calculate_rental_cost (objs (request.scooter request))
                (request.hours request) in
  if (request.hours request <? 4)%float then (true, [operator_approved rental_id])
  else if (cost <=? 1000)%float then (true, [manager_approved rental_id cost])
  else (true, [admin_approved rental_id]).

(** The handlers of [w] are the chain [_setup_handlers] builds. *)
Definition set_up (w : World) : Prop :=
  exists handlers, _setup_handlers handlers = (_change_handler w, handler_objs w).

(** [add_station] *)
Definition add_station (station : RentalStation) (w : World)
    : result unit * World :=
  match stations w !! station_id station with
  | Some _ => (Raise (ValueError (StationExists (station_id station))), w)
  | None =>
    (Ok tt,
     {| scooter_objs := scooter_objs w;
        handler_objs := handler_objs w;
        stations := <[station_id station := station]> (stations w);
        clients := clients w;
        rentals := rentals w;
        _change_handler := _change_handler w |})
  end.

(** [register_client] *)
Definition register_client (client_id name phone : string) (w : World)
    : result unit * World :=
  match clients w !! client_id with
  | Some _ => (Raise (ValueError (ClientExists client_id)), w)
  | None =>
    (Ok tt,
     {| scooter_objs := scooter_objs w;
        handler_objs := handler_objs w;
        stations := stations w;
        clients := <[client_id := {| name := name; phone := phone |}]> (clients w);
        rentals := rentals w;
        _change_handler := _change_handler w |})
  end.

(** [process_rental_change] *)
Definition process_rental_change (fuel : nat) (rental_id : string)
    (new_hours : float) (w : World)
    : option (result bool * World * list output) :=
  match rentals w !! rental_id with
  | None => Some (Raise (ValueError (RentalNotFound rental_id)), w, [])
  | Some rental =>
    let station_id := rental.station_id rental in
    match stations w !! station_id with
    | None => Some (Raise (ValueError (StationNotFound station_id)), w, [])
    | Some station =>
      match find_by_id (scooter_objs w) (scooters station)
              (rental.scooter_id rental) with
      | None =>
        Some (Raise (ValueError
                (ScooterNotFound (rental.scooter_id rental) station_id)), w, [])
      | Some scooter =>
        let request :=
          {| request.rental_id := rental_id;
             request.hours := new_hours;
             request.scooter := scooter;
             request.client_id := rental.client_id rental |} in
        match handle_change fuel w request with
        | None => None
        | Some (approved, out) =>
          if approved then
            let cost := calculate_rental_cost (scooter_objs w scooter) new_hours in
            let rental' :=
              {| rental.client_id := rental.client_id rental;
                 rental.station_id := rental.station_id rental;
                 rental.scooter_id := rental.scooter_id rental;
                 rental.hours := new_hours;
                 rental.cost := cost |} in
            Some (Ok true,
                  with_rentals (<[rental_id := rental']> (rentals w)) w,
                  out ++ [rental_changed rental_id new_hours cost])
          else Some (Ok false, w, out)
        end
      end
    end
  end.

(** [add_rental] *)
Definition add_rental (rental_id client_id station_id scooter_id : string)
    (hours : float) (w : World) : result unit * World * list output :=
  match stations w !! station_id with
  | None => (Raise (ValueError (StationNotFound station_id)), w, [])
  | Some station =>
    match find_by_id (scooter_objs w) (scooters station) scooter_id with
    | None => (Raise (ValueError (ScooterNotFound scooter_id station_id)), w, [])
    | Some scooter =>
      if negb (is_available (scooter_objs w scooter)) then
        (Raise (ValueError (ScooterUnavailable scooter_id)), w, [])
      else
        match rent_scooter scooter_id hours station (scooter_objs w) with
        | (Raise e, objs', out) => (Raise e, with_scooter_objs objs' w, out)
        | (Ok cost, objs', out) =>
          let rental :=
            {| rental.client_id := client_id;
               rental.station_id := station_id;
               rental.scooter_id := scooter_id;
               rental.hours := hours;
               rental.cost := cost |} in
          (Ok tt,
           with_rentals (<[rental_id := rental]> (rentals w))
             (with_scooter_objs objs' w),
           out)
        end
    end
  end.

(** The scooter a rental record refers to is the one the lookups of
    [process_rental_change] find: the first scooter with the record's
    scooter id in the fleet of the record's station.  A record is consistent
    when its cost is that scooter's price for its hours, as the same
    binary64 value. *)
Definition rental_consistent (w : World) (r : rental.t) : Prop :=
  exists station scooter,
    stations w !! rental.station_id r = Some station
    /\ find_by_id (scooter_objs w) (scooters station) (rental.scooter_id r)
       = Some scooter
    /\ rental.cost r
       = calculate_rental_cost (scooter_objs w scooter) (rental.hours r).

Definition consistent (w : World) : Prop :=
  forall rental_id r, rentals w !! rental_id = Some r -> rental_consistent w r.

(** One call of a method of the system, whatever its arguments and whether
    it returns or raises. *)
Inductive step : World -> World -> Prop :=
| step_add_station station w :
    step w (add_station station w).2
| step_register_client client_id name phone w :
    step w (register_client client_id name phone w).2
| step_add_rental rental_id client_id station_id scooter_id hours w :
    step w (add_rental rental_id client_id station_id scooter_id hours w).1.2
| step_process_rental_change fuel rental_id new_hours w r w' out :
    process_rental_change fuel rental_id new_hours w = Some (r, w', out) ->
    step w w'.

End system_module.

(** ** main.py

    The objects the script creates, and the state it has reached when it
    makes its first rental: both stations registered and stocked, both
    clients registered (addresses and names transliterated). *)

Module main.
Import python scooter_module station_module system_module.

Definition scooter1 : Scooter :=
  CityScooter "SC001" "Xiaomi Mi Electric Scooter Pro" 95 150 (VFloat 25).
Definition scooter2 : Scooter :=
  OffRoadScooter "SC002" "Segway Dirt eS2" 80 200 (VStr "Knobby").
Definition scooter3 : Scooter :=
  FoldableScooter "SC003" "Ninebot ES2" 100 120 (VFloat 12.5).

Definition objs : loc -> Scooter :=
  fun l => match l with 0 => scooter1 | 1 => scooter2 | _ => scooter3 end.

Definition station1 : RentalStation :=
  {| station_id := "ST001";
     location := mkLocation "Lenina 10" 55.7558 37.6173;
     capacity := 5;
     scooters := [0; 1] |}.

Definition station2 : RentalStation :=
  {| station_id := "ST002";
     location := mkLocation "Mira 25" 55.7512 37.6180;
     capacity := 3;
     scooters := [2] |}.

Definition stocked : World :=
  let w := RentalSystem_init objs [] in
  let w := (add_station station1 w).2 in
  let w := (add_station station2 w).2 in
  let w := (register_client "CL001" "Ivan Petrov" "+79991234567" w).2 in
  (register_client "CL002" "Maria Sidorova" "+79997654321" w).2.

(** After [add_rental("RT001", "CL001", "ST001", "SC001", 2.5)] and
    [add_rental("RT002", "CL002", "ST002", "SC003", 1.0)]. *)
Definition rented : World :=
  let w := (add_rental "RT001" "CL001" "ST001" "SC001" 2.5 stocked).1.2 in
  (add_rental "RT002" "CL002" "ST002" "SC003" 1 w).1.2.

(** After [process_rental_change("RT001", 5.0)]. *)
Definition changed : World :=
  match process_rental_change 3 "RT001" 5 rented with
  | Some (_, w, _) => w
  | None => rented
  end.

(** A keyword next to the required one. *)
Definition kwargs_with_colour : gmap string value :=
  <["color" := VStr "red"]> {[ "max_speed" := VFloat 25 ]}.

(** A request for five hours on a City scooter whose rate is 95.0. *)
Definition city95 : loc -> Scooter :=
  fun _ => CityScooter "SC010" "City 95" 80 95 (VFloat 25).

Definition five_hours : request.t :=
  {| request.rental_id := "RT010";
     request.hours := 5;
     request.scooter := 0;
     request.client_id := "CL001" |}.

(** Two requests for two hours, on different scooters and rentals. *)
Definition two_hours_other : request.t :=
  {| request.rental_id := "RT001";
     request.hours := 2;
     request.scooter := 1;
     request.client_id := "CL001" |}.

Definition two_hours : request.t :=
  {| request.rental_id := "RT010";
     request.hours := 2;
     request.scooter := 0;
     request.client_id := "CL002" |}.

End main.

(** ** station_module.py, the fleet of a station

    [add_scooter] and [remove_scooter], with the messages of their
    [ValueError]s and the lines they log. *)

Module fleet.
Import python scooter_module station_module.

Inductive fleet_message :=
| StationFull (station_id : string) (capacity : Z)   (* station is full *)
| ScooterAlreadyAtStation (scooter_id : string)      (* scooter already at the station *)
| NotAtStation (scooter_id : string).                (* scooter not found at the station *)

Inductive fleet_result (A : Type) :=
| Returns (a : A)
| Raises (msg : fleet_message).
Arguments Returns {A} a.
Arguments Raises {A} msg.

Inductive fleet_output :=
| log_added (model station_id : string)
| notify_ready (model station_id : string)
| log_removed (model station_id : string).

Definition with_scooters (l : list loc) (self : RentalStation) : RentalStation :=
  {| station_id := station_id self;
     location := location self;
     capacity := capacity self;
     scooters := l |}.

(** [add_scooter] *)
Definition add_scooter (scooter : loc) (self : RentalStation)
    (objs : loc -> Scooter)
    : fleet_result unit * RentalStation * list fleet_output :=
  if (capacity self <=? Z.of_nat (length (scooters self)))%Z then
    (Raises (StationFull (station_id self) (capacity self)), self, [])
  else if existsb (fun s => String.eqb (scooter_id (objs s)) (scooter_id (objs scooter)))
                  (scooters self) then
    (Raises (ScooterAlreadyAtStation (scooter_id (objs scooter))), self, [])
  else
    (Returns tt,
     with_scooters (scooters self ++ [scooter]) self,
     [log_added (model (objs scooter)) (station_id self);
      notify_ready (model (objs scooter)) (station_id self)]).

(** [list.remove]: the first occurrence of the object goes (the scooters
    define no [__eq__], so two entries are equal when they are the same
    object). *)
Fixpoint list_remove (x : loc) (l : list loc) : list loc :=
  match l with
  | [] => []
  | y :: rest => if Nat.eqb y x then rest else y :: list_remove x rest
  end.

(** [remove_scooter] *)
Definition remove_scooter (scooter_id : string) (self : RentalStation)
    (objs : loc -> Scooter)
    : fleet_result loc * RentalStation * list fleet_output :=
  match find_by_id objs (scooters self) scooter_id with
  | Some scooter =>
    (Returns scooter,
     with_scooters (list_remove scooter (scooters self)) self,
     [log_removed (model (objs scooter)) (station_id self)])
  | None => (Raises (NotAtStation scooter_id), self, [])
  end.

(** The scooters of a fleet carry pairwise different ids. *)
Definition distinct_ids (objs : loc -> Scooter) (l : list loc) : Prop :=
  NoDup (map (fun s => scooter_id (objs s)) l).

End fleet.

(** ** Further objects used as examples *)

Module examples.
Import python scooter_module station_module system_module fleet main.

(** A handler linked to itself, as [h.set_next(h)] leaves it. *)
Definition looped : list Handler :=
  (set_next 0 0 (new_handler OperatorHandler []).2).2.

(** An Operator on its own, and a Manager on its own. *)
Definition lone_operator : list Handler := (new_handler OperatorHandler []).2.
Definition lone_manager : list Handler := (new_handler ManagerHandler []).2.

(** Three handlers, not yet linked. *)
Definition unlinked : list Handler :=
  (new_handler AdminHandler
     (new_handler ManagerHandler (new_handler OperatorHandler []).2).2).2.

Definition fifty_hours : request.t :=
  {| request.rental_id := "RT001";
     request.hours := 50;
     request.scooter := 0;
     request.client_id := "CL001" |}.

End examples.

(** ** A condition on states *)

Module invariants.
Import python scooter_module station_module system_module.

(** Every rental record refers to a scooter that is marked as rented. *)
Definition rented_unavailable (w : World) : Prop :=
  forall rental_id r,
    rentals w !! rental_id = Some r ->
    exists station scooter,
      stations w !! rental.station_id r = Some station
      /\ find_by_id (scooter_objs w) (scooters station) (rental.scooter_id r)
         = Some scooter
      /\ is_available (scooter_objs w scooter) = false.

End invariants.

(** * Properties *)

Import python scooter_module station_module system_module main.

(** ** Binary64 comparisons

    [<?] and [<=?] on floats are the IEEE comparisons: each is false as soon
    as one side is NaN, and they exclude each other the expected way. *)

Section float_order.

Lemma SFcompare_antisym (x y : spec_float) :
  SFcompare y x = CompOpp <$> SFcompare x y.
Proof.
  destruct x as [sx|sx| |sx mx ex], y as [sy|sy| |sy my ey]; simpl;
    try destruct sx; try destruct sy; try reflexivity.
  all: rewrite (Z.compare_antisym ex ey); destruct (ex ?= ey)%Z; simpl;
    try reflexivity.
  all: pose proof (Pos.compare_cont_antisym mx my Eq) as A; simpl in A;
    rewrite <- A; reflexivity.
Qed.

Lemma SFcompare_refl (x : spec_float) :
  SFcompare x x = None -> x = S754_nan.
Proof.
  destruct x as [s|s| |s m e]; simpl; try discriminate; reflexivity.
Qed.

Lemma ltb_not_leb (x y : float) :
  (x <? y)%float = true -> (y <=? x)%float = false.
Proof.
  rewrite ltb_spec, leb_spec. unfold SFltb, SFleb.
  rewrite (SFcompare_antisym (Prim2SF x) (Prim2SF y)).
  destruct (SFcompare (Prim2SF x) (Prim2SF y)) as [[]|]; simpl; congruence.
Qed.

Lemma leb_not_ltb (x y : float) :
  (x <=? y)%float = true -> (y <? x)%float = false.
Proof.
  rewrite ltb_spec, leb_spec. unfold SFltb, SFleb.
  rewrite (SFcompare_antisym (Prim2SF x) (Prim2SF y)).
  destruct (SFcompare (Prim2SF x) (Prim2SF y)) as [[]|]; simpl; congruence.
Qed.

Lemma is_nan_Prim2SF (x : float) :
  is_nan x = true -> Prim2SF x = S754_nan.
Proof.
  unfold is_nan. rewrite FloatAxioms.eqb_spec. unfold SFeqb. intros H.
  apply SFcompare_refl.
  destruct (Prim2SF x) as [s|s| |s m e]; simpl in *; try reflexivity;
    try discriminate.
  - destruct s; discriminate.
  - rewrite Z.compare_refl, Pcompare_refl in H. destruct s; discriminate.
Qed.

Lemma nan_not_leb_r (x y : float) : is_nan y = true -> (x <=? y)%float = false.
Proof.
  intros H. rewrite leb_spec, (is_nan_Prim2SF y H). unfold SFleb.
  destruct (Prim2SF x); reflexivity.
Qed.

End float_order.

(** ** Pricing *)

Section pricing.

(** The decimal constants denote the nearest binary64 values, as they do
    in Python. *)
Example discount_constants :
  (0.9 = 0x1.ccccccccccccdp-1 /\ 1.15 = 0x1.2666666666666p+0
   /\ 0.95 = 0x1.e666666666666p-1)%float.
Proof. repeat split; reflexivity. Qed.

(** The cost does not look at the battery level or the availability. *)
Lemma calculate_rental_cost_ext (s s' : Scooter) (h : float) :
  hourly_rate s = hourly_rate s' -> variant s = variant s' ->
  calculate_rental_cost s h = calculate_rental_cost s' h.
Proof.
  intros Hr Hv. unfold calculate_rental_cost. rewrite Hr, Hv. reflexivity.
Qed.

Lemma calculate_rental_cost_set_is_available (s : Scooter) (a : bool) (h : float) :
  calculate_rental_cost (set_is_available a s) h = calculate_rental_cost s h.
Proof. apply calculate_rental_cost_ext; reflexivity. Qed.

(** C2.  For every City scooter with hourly rate [r] and every duration
    [h], the rental cost is [r*h*0.9] when [h > 3] and [r*h] otherwise;
    at rate 95.0 four hours cost 342.0 and two hours cost 190.0. *)
Theorem city_rental_cost :
  (forall id m b r a max_speed h,
      calculate_rental_cost (mkScooter id m b r a (City max_speed)) h
      = if (3 <? h)%float then (r * h * 0.9)%float else (r * h)%float)
  /\ (forall id m b a max_speed,
      calculate_rental_cost (mkScooter id m b 95 a (City max_speed)) 4 = 342%float)
  /\ (forall id m b a max_speed,
      calculate_rental_cost (mkScooter id m b 95 a (City max_speed)) 2 = 190%float).
Proof. repeat split; intros; reflexivity. Qed.

(** C3.  For every OffRoad scooter the cost is [rate*hours*1.15] and for
    every Foldable scooter it is [rate*hours*0.95], for every duration;
    OffRoad at rate 80.0 for 2 hours costs 184.0 and Foldable at rate 100.0
    for 1 hour costs 95.0. *)
Theorem off_road_and_foldable_rental_cost :
  (forall id m b r a tire_type h,
      calculate_rental_cost (mkScooter id m b r a (OffRoad tire_type)) h
      = (r * h * 1.15)%float)
  /\ (forall id m b r a weight h,
      calculate_rental_cost (mkScooter id m b r a (Foldable weight)) h
      = (r * h * 0.95)%float)
  /\ (forall id m b a tire_type,
      calculate_rental_cost (mkScooter id m b 80 a (OffRoad tire_type)) 2 = 184%float)
  /\ (forall id m b a weight,
      calculate_rental_cost (mkScooter id m b 100 a (Foldable weight)) 1 = 95%float).
Proof. repeat split; intros; reflexivity. Qed.

End pricing.

(** ** Battery level *)

Section battery.

Lemma battery_in_range_outside (v : float) :
  (v <? 0)%float = true \/ (100 <? v)%float = true \/ is_nan v = true ->
  battery_in_range v = false.
Proof.
  unfold battery_in_range. intros [H | [H | H]].
  - rewrite (ltb_not_leb _ _ H). reflexivity.
  - rewrite (ltb_not_leb _ _ H). apply andb_false_r.
  - rewrite (nan_not_leb_r _ _ H). reflexivity.
Qed.

(** A write through the setter, accepted or not, leaves a level that was
    in range in range. *)
Lemma set_battery_level_keeps_range (v : float) (s : Scooter) :
  battery_in_range (battery_level s) = true ->
  battery_in_range (battery_level (set_battery_level v s).2) = true.
Proof.
  intros H. unfold set_battery_level.
  destruct (battery_in_range v) eqn:E; simpl; assumption.
Qed.

Lemma set_is_available_battery (a : bool) (s : Scooter) :
  battery_level (set_is_available a s) = battery_level s.
Proof. reflexivity. Qed.

(** Renting changes no battery level. *)
Lemma rent_scooter_battery scooter_id hours (station : RentalStation)
    (objs : loc -> Scooter) (l : loc) :
  battery_level ((rent_scooter scooter_id hours station objs).1.2 l)
  = battery_level (objs l).
Proof.
  unfold rent_scooter.
  destruct (find_by_id _ _ _) as [s |]; [| reflexivity].
  destruct (is_available (objs s)); [| reflexivity]. simpl.
  destruct (decide (s = l)) as [-> | Hne].
  - rewrite fn_lookup_insert. reflexivity.
  - rewrite fn_lookup_insert_ne by assumption. reflexivity.
Qed.

(** C8.  The setter fails with [InvalidBatteryLevel] for every value
    outside [0,100] (101 and -1 among them) and then leaves the scooter
    as it was, every field included; writing exactly 0 or exactly 100
    succeeds. *)
Theorem battery_setter_bounds :
  (forall (s : Scooter) (v : float),
      (v <? 0)%float = true \/ (100 <? v)%float = true \/ is_nan v = true ->
      set_battery_level v s = (Raise (ValueError InvalidBatteryLevel), s))
  /\ (forall s, set_battery_level 101 s = (Raise (ValueError InvalidBatteryLevel), s))
  /\ (forall s, set_battery_level (-1) s = (Raise (ValueError InvalidBatteryLevel), s))
  /\ (forall s, set_battery_level 0 s
                = (Ok tt, mkScooter (scooter_id s) (model s) 0 (hourly_rate s)
                                    (is_available s) (variant s)))
  /\ (forall s, set_battery_level 100 s
                = (Ok tt, mkScooter (scooter_id s) (model s) 100 (hourly_rate s)
                                    (is_available s) (variant s))).
Proof.
  repeat split; intros; try reflexivity.
  unfold set_battery_level. rewrite battery_in_range_outside by assumption.
  reflexivity.
Qed.

Lemma battery_setter_bounds_witness :
  set_battery_level 250 (CityScooter "SC001" "Mi Pro" 95 150 (VFloat 25))
  = (Raise (ValueError InvalidBatteryLevel),
     CityScooter "SC001" "Mi Pro" 95 150 (VFloat 25)).
Proof.
  apply (proj1 battery_setter_bounds). right; left. reflexivity.
Defined.

(** C7 fails on the code: the constructors store the level they are given
    without the check the setter makes, so the factory hands out a scooter
    whose level is 150. *)
Theorem constructor_skips_battery_check :
  exists s,
    create_scooter "city" "SC001" "Mi Pro" 150 95 {[ "max_speed" := VFloat 25 ]} = Ok s
    /\ battery_level s = 150%float
    /\ battery_in_range (battery_level s) = false.
Proof.
  exists (CityScooter "SC001" "Mi Pro" 150 95 (VFloat 25)).
  repeat split; vm_compute; reflexivity.
Qed.

End battery.

(** ** Factory *)

Section factory.

Lemma registry_eq :
  _registry
  = <["foldable" := cls_FoldableScooter]>
      (<["off_road" := cls_OffRoadScooter]>
        (<["city" := cls_CityScooter]> ∅)).
Proof. reflexivity. Qed.

(** The lookup ignores the case of the tag. *)
Example get_class_ignores_case :
  get_class "CITY" = Some cls_CityScooter /\ get_class "Off_Road" = Some cls_OffRoadScooter.
Proof. split; vm_compute; reflexivity. Qed.

Lemma get_class_unregistered (scooter_type : string) :
  (forall param ctor, ~ registered (lower scooter_type) param ctor) ->
  get_class scooter_type = None.
Proof.
  intros H. unfold get_class. rewrite registry_eq.
  rewrite !lookup_insert_ne, lookup_empty; [reflexivity | | | ];
    intros E; eapply H; rewrite <- E; constructor.
Qed.

Lemma create_scooter_registered (scooter_type param : string) ctor
    (scooter_id model : string) (battery_level hourly_rate : float)
    (kwargs : gmap string value) :
  registered (lower scooter_type) param ctor ->
  exists c mk,
    own_param c = Some (param, mk)
    /\ (forall v, ctor scooter_id model battery_level hourly_rate v
                  = Scooter_init scooter_id model battery_level hourly_rate (mk v))
    /\ create_scooter scooter_type scooter_id model battery_level hourly_rate kwargs
       = match kwargs !! param with
         | None => Raise (ValueError (MissingParameter param scooter_type))
         | Some _ => instantiate c scooter_id model battery_level hourly_rate kwargs
         end.
Proof.
  intros H. unfold create_scooter, get_class.
  inversion H as [E | E | E].
  - exists cls_CityScooter, City. repeat split.
    change (_registry !! "city") with (Some cls_CityScooter).
    change (required_params !! "city") with (Some ["max_speed"]).
    simpl. destruct (kwargs !! "max_speed"); reflexivity.
  - exists cls_OffRoadScooter, OffRoad. repeat split.
    change (_registry !! "off_road") with (Some cls_OffRoadScooter).
    change (required_params !! "off_road") with (Some ["tire_type"]).
    simpl. destruct (kwargs !! "tire_type"); reflexivity.
  - exists cls_FoldableScooter, Foldable. repeat split.
    change (_registry !! "foldable") with (Some cls_FoldableScooter).
    change (required_params !! "foldable") with (Some ["weight"]).
    simpl. destruct (kwargs !! "weight"); reflexivity.
Qed.

(** C6 as stated fails: with the tag "city" and [max_speed] present, one
    more keyword makes the call end in a [TypeError], not in an instance. *)
Lemma factory_rejects_extra_keyword :
  get_class "city" = Some cls_CityScooter
  /\ kwargs_with_colour !! "max_speed" = Some (VFloat 25)
  /\ create_scooter "city" "SC001" "Mi Pro" 95 150 kwargs_with_colour
     = Raise (TypeError UnexpectedKeyword).
Proof. repeat split; vm_compute; reflexivity. Qed.

(** C6, amended.  A tag is recognized when its lower-case form is "city",
    "off_road" or "foldable".  The factory fails with [UnknownVariant]
    for every other tag ("unicycle"), fails with [MissingParameter] for a
    recognized tag whose required keyword is absent ("off_road" with no
    keywords), and returns the instance of the tag's class when the
    required keyword is the only keyword supplied. *)
Theorem create_scooter_outcomes :
  (forall scooter_type scooter_id model battery_level hourly_rate kwargs,
      (forall param ctor, ~ registered (lower scooter_type) param ctor) ->
      create_scooter scooter_type scooter_id model battery_level hourly_rate kwargs
      = Raise (ValueError (UnknownVariant scooter_type)))
  /\ (forall scooter_type param ctor scooter_id model battery_level hourly_rate kwargs,
      registered (lower scooter_type) param ctor ->
      kwargs !! param = None ->
      create_scooter scooter_type scooter_id model battery_level hourly_rate kwargs
      = Raise (ValueError (MissingParameter param scooter_type)))
  /\ (forall scooter_type param ctor scooter_id model battery_level hourly_rate kwargs v,
      registered (lower scooter_type) param ctor ->
      kwargs !! param = Some v ->
      (forall other, other <> param -> kwargs !! other = None) ->
      create_scooter scooter_type scooter_id model battery_level hourly_rate kwargs
      = Ok (ctor scooter_id model battery_level hourly_rate v))
  /\ (forall scooter_id model battery_level hourly_rate kwargs,
      create_scooter "unicycle" scooter_id model battery_level hourly_rate kwargs
      = Raise (ValueError (UnknownVariant "unicycle")))
  /\ (forall scooter_id model battery_level hourly_rate,
      create_scooter "off_road" scooter_id model battery_level hourly_rate ∅
      = Raise (ValueError (MissingParameter "tire_type" "off_road"))).
Proof.
  split; [| split; [| split; [| split]]].
  - intros ty id m b r kw H. unfold create_scooter.
    rewrite (get_class_unregistered ty H). reflexivity.
  - intros ty p k id m b r kw H Hnone.
    destruct (create_scooter_registered ty p k id m b r kw H)
      as (c & mk & _ & _ & ->).
    rewrite Hnone. reflexivity.
  - intros ty p k id m b r kw v H Hsome Honly.
    destruct (create_scooter_registered ty p k id m b r kw H)
      as (c & mk & Hown & Hctor & ->).
    rewrite Hsome. unfold instantiate. rewrite Hown.
    rewrite bool_decide_eq_true_2, Hsome, Hctor; [reflexivity |].
    intros other Hin. apply elem_of_dom in Hin. apply elem_of_singleton.
    destruct (decide (other = p)) as [| Hne]; [assumption |].
    rewrite (Honly other Hne) in Hin. destruct Hin; discriminate.
  - intros. reflexivity.
  - intros. reflexivity.
Qed.

Lemma create_scooter_outcomes_witness :
  create_scooter "Foldable" "SC003" "Ninebot ES2" 100 120 {[ "weight" := VFloat 12.5 ]}
  = Ok (FoldableScooter "SC003" "Ninebot ES2" 100 120 (VFloat 12.5))
  /\ create_scooter "city" "SC001" "Mi Pro" 95 150 {[ "weight" := VFloat 12.5 ]}
     = Raise (ValueError (MissingParameter "max_speed" "city"))
  /\ create_scooter "segway" "SC001" "Mi Pro" 95 150 {[ "weight" := VFloat 12.5 ]}
     = Raise (ValueError (UnknownVariant "segway")).
Proof.
  split; [| split].
  - apply (proj1 (proj2 (proj2 create_scooter_outcomes))
             "Foldable" "weight" FoldableScooter).
    + constructor.
    + reflexivity.
    + intros other Hne. apply lookup_singleton_ne. congruence.
  - apply (proj1 (proj2 create_scooter_outcomes) "city" "max_speed" CityScooter).
    + constructor.
    + reflexivity.
  - apply (proj1 create_scooter_outcomes).
    intros param ctor H. inversion H.
Defined.

End factory.

(** ** Approval chain *)

Section approval_chain.

Lemma setup_handlers_eq (handlers : list Handler) :
  _setup_handlers handlers
  = (length handlers,
     handlers ++
       [ mkHandler OperatorHandler (Some (S (length handlers)));
         mkHandler ManagerHandler (Some (S (S (length handlers))));
         mkHandler AdminHandler None ]).
Proof.
  unfold _setup_handlers, new_handler, set_next. f_equal.
  rewrite !length_alter, !length_app. simpl.
  rewrite <- !app_assoc. simpl.
  rewrite (alter_app_r_alt _ handlers) by lia. rewrite Nat.sub_diag. simpl.
  rewrite <- !app_assoc. simpl.
  rewrite (alter_app_r_alt _ handlers) by lia.
  replace (length handlers + 1 - length handlers) with 1 by lia. simpl.
  replace (length handlers + 1 + 1) with (S (S (length handlers))) by lia.
  replace (length handlers + 1) with (S (length handlers)) by lia.
  reflexivity.
Qed.

Lemma RentalSystem_init_set_up objs handlers :
  set_up (RentalSystem_init objs handlers).
Proof.
  exists handlers. unfold RentalSystem_init.
  destruct (_setup_handlers handlers) as [root hs]. reflexivity.
Qed.

(** The three objects of the chain and their links. *)
Lemma set_up_lookup (w : World) :
  set_up w ->
  let n := _change_handler w in
  handler_objs w !! n = Some (mkHandler OperatorHandler (Some (S n)))
  /\ handler_objs w !! S n = Some (mkHandler ManagerHandler (Some (S (S n))))
  /\ handler_objs w !! S (S n) = Some (mkHandler AdminHandler None).
Proof.
  intros [hs E]. rewrite setup_handlers_eq in E.
  injection E as En Eh. simpl. rewrite <- Eh, <- En.
  repeat split.
  - rewrite lookup_app_r by lia. rewrite Nat.sub_diag. reflexivity.
  - rewrite lookup_app_r by lia.
    replace (S (length hs) - length hs) with 1 by lia. reflexivity.
  - rewrite lookup_app_r by lia.
    replace (S (S (length hs)) - length hs) with 2 by lia. reflexivity.
Qed.

Lemma chain_outcome_true objs request : (chain_outcome objs request).1 = true.
Proof.
  unfold chain_outcome.
  destruct (request.hours request <? 4)%float; [reflexivity |].
  destruct (_ <=? 1000)%float; reflexivity.
Qed.

Lemma handle_change_enough (w : World) (request : request.t) (n : nat) :
  set_up w ->
  handle_change (3 + n) w request = Some (chain_outcome (scooter_objs w) request).
Proof.
  intros Hw. destruct (set_up_lookup w Hw) as (Ho & Hm & Ha).
  unfold handle_change, chain_outcome. simpl. rewrite Ho. simpl.
  destruct (request.hours request <? 4)%float; [reflexivity |].
  rewrite Hm. simpl.
  destruct (_ <=? 1000)%float; [reflexivity |].
  rewrite Ha. reflexivity.
Qed.

(** With less fuel the call either has not returned or has returned the
    same answer. *)
Lemma handle_change_returns (w : World) (request : request.t) (fuel : nat) r :
  set_up w ->
  handle_change fuel w request = Some r ->
  r = chain_outcome (scooter_objs w) request.
Proof.
  intros Hw. destruct (set_up_lookup w Hw) as (Ho & Hm & Ha).
  unfold handle_change, chain_outcome.
  destruct fuel as [| [| [| fuel]]]; simpl; try discriminate;
    rewrite Ho; simpl;
    destruct (request.hours request <? 4)%float; try congruence;
    try rewrite Hm; simpl;
    destruct (_ <=? 1000)%float; try congruence;
    try rewrite Ha; simpl; congruence.
Qed.

(** C1.  For the chain built at system start (Operator, Manager, Admin)
    the decision is [true] for every request, whatever its hours and its
    scooter: the call returns [true] once three levels may run, and no
    run returns [false]. *)
Theorem chain_never_denies (w : World) (request : request.t) :
  set_up w ->
  (forall n, exists out, handle_change (3 + n) w request = Some (true, out))
  /\ (forall fuel b out, handle_change fuel w request = Some (b, out) -> b = true).
Proof.
  intros Hw. split.
  - intros n. exists (chain_outcome (scooter_objs w) request).2.
    rewrite (handle_change_enough w request n Hw).
    rewrite <- (chain_outcome_true (scooter_objs w) request).
    destruct (chain_outcome _ _); reflexivity.
  - intros fuel b out H.
    apply (handle_change_returns w request fuel _ Hw) in H.
    rewrite <- (chain_outcome_true (scooter_objs w) request), <- H. reflexivity.
Qed.

Lemma chain_never_denies_witness :
  exists out, handle_change 3 rented five_hours = Some (true, out).
Proof.
  assert (Hw : set_up rented) by (exists []; reflexivity).
  apply (proj1 (chain_never_denies rented five_hours Hw) 0).
Defined.

(** C4.  For every request with [hours >= 4] the Operator passes the
    request on, the Manager computes the scooter's price for the requested
    hours and approves exactly when it is at most 1000, and the Admin
    approves otherwise.  A City scooter at rate 95.0 asked for 5.0 hours is
    declined by the Operator, priced at 427.5 and approved by the Manager. *)
Theorem manager_level_decides (w : World) (request : request.t) :
  set_up w ->
  (4 <=? request.hours request)%float = true ->
  let cost := calculate_rental_cost (scooter_objs w (request.scooter request))
                (request.hours request) in
  (forall n,
      handle_change (3 + n) w request
      = Some (true,
              [if (cost <=? 1000)%float
               then manager_approved (request.rental_id request) cost
               else admin_approved (request.rental_id request)])
      /\ approved_by (3 + n) w request
         = Some (if (cost <=? 1000)%float then Manager else Admin))
  /\ handle_change 1 w request = None
  /\ (forall max_speed,
         variant (scooter_objs w (request.scooter request)) = City max_speed ->
         hourly_rate (scooter_objs w (request.scooter request)) = 95%float ->
         request.hours request = 5%float ->
         cost = 427.5%float
         /\ handle_change 2 w request
            = Some (true, [manager_approved (request.rental_id request) 427.5])
         /\ approved_by 2 w request = Some Manager).
Proof.
  intros Hw Hge cost.
  pose proof (leb_not_ltb _ _ Hge) as Hop.
  destruct (set_up_lookup w Hw) as (Ho & Hm & Ha).
  assert (Hall : forall n,
             handle_change (3 + n) w request
             = Some (true,
                     [if (cost <=? 1000)%float
                      then manager_approved (request.rental_id request) cost
                      else admin_approved (request.rental_id request)])).
  { intros n. rewrite (handle_change_enough w request n Hw).
    unfold chain_outcome. rewrite Hop. fold cost.
    destruct (cost <=? 1000)%float; reflexivity. }
  split; [| split].
  - intros n. split; [apply Hall |].
    unfold approved_by. rewrite (Hall n). simpl.
    destruct (cost <=? 1000)%float; reflexivity.
  - unfold handle_change. simpl. rewrite Ho. simpl. rewrite Hop. reflexivity.
  - intros max_speed Hv Hr Hh.
    assert (Hc : cost = 427.5%float).
    { unfold cost, calculate_rental_cost. rewrite Hv, Hr, Hh. reflexivity. }
    assert (H2 : handle_change 2 w request
                 = Some (true, [manager_approved (request.rental_id request) 427.5])).
    { unfold handle_change. simpl. rewrite Ho. simpl. rewrite Hop, Hm. simpl.
      fold cost. rewrite Hc. reflexivity. }
    split; [exact Hc | split; [exact H2 |]].
    unfold approved_by. rewrite H2. reflexivity.
Qed.

Lemma manager_level_decides_witness :
  handle_change 3 (with_scooter_objs city95 stocked) five_hours
  = Some (true, [manager_approved "RT010" 427.5])
  /\ approved_by 3 (with_scooter_objs city95 stocked) five_hours = Some Manager.
Proof.
  assert (Hw : set_up (with_scooter_objs city95 stocked))
    by (exists []; reflexivity).
  apply (proj1 (manager_level_decides (with_scooter_objs city95 stocked) five_hours
                  Hw eq_refl) 0).
Defined.

(** C5.  A request with [hours < 4] is approved by the Operator, and the
    scooter plays no part: two requests with the same hours below 4, on any
    two scooters, get the same decision from the same authority, and the
    Operator alone has run. *)
Theorem operator_level_ignores_scooter (w1 w2 : World) (r1 r2 : request.t) :
  set_up w1 -> set_up w2 ->
  request.hours r1 = request.hours r2 ->
  (request.hours r1 <? 4)%float = true ->
  forall n,
    decision (S n) w1 r1 = Some true
    /\ decision (S n) w1 r1 = decision (S n) w2 r2
    /\ approved_by (S n) w1 r1 = Some Operator
    /\ approved_by (S n) w1 r1 = approved_by (S n) w2 r2
    /\ handle_change 1 w1 r1 = Some (true, [operator_approved (request.rental_id r1)]).
Proof.
  intros Hw1 Hw2 Hh Hlt n.
  destruct (set_up_lookup w1 Hw1) as (Ho1 & _).
  destruct (set_up_lookup w2 Hw2) as (Ho2 & _).
  assert (H1 : forall k, handle_change (S k) w1 r1
                         = Some (true, [operator_approved (request.rental_id r1)])).
  { intros k. unfold handle_change. simpl. rewrite Ho1. simpl. rewrite Hlt.
    reflexivity. }
  assert (H2 : handle_change (S n) w2 r2
               = Some (true, [operator_approved (request.rental_id r2)])).
  { unfold handle_change. simpl. rewrite Ho2. simpl. rewrite <- Hh, Hlt.
    reflexivity. }
  unfold decision, approved_by. rewrite (H1 n), H2, (H1 0). simpl.
  repeat split; reflexivity.
Qed.

Lemma operator_level_ignores_scooter_witness :
  decision 3 rented two_hours_other = decision 3 (with_scooter_objs city95 stocked) two_hours
  /\ approved_by 3 rented two_hours_other
     = approved_by 3 (with_scooter_objs city95 stocked) two_hours.
Proof.
  assert (Hw1 : set_up rented) by (exists []; reflexivity).
  assert (Hw2 : set_up (with_scooter_objs city95 stocked))
    by (exists []; reflexivity).
  pose proof (operator_level_ignores_scooter
                rented (with_scooter_objs city95 stocked) two_hours_other two_hours
                Hw1 Hw2 eq_refl eq_refl 2) as (_ & Hd & _ & Ha & _).
  split; [exact Hd | exact Ha].
Defined.

End approval_chain.

(** ** Rental registry *)

Section registry.

Lemma find_by_id_ext (objs objs' : loc -> Scooter) (l : list loc) (id : string) :
  (forall s, scooter_id (objs' s) = scooter_id (objs s)) ->
  find_by_id objs' l id = find_by_id objs l id.
Proof.
  intros H. induction l as [| s l IH]; simpl; [reflexivity |].
  rewrite H, IH. reflexivity.
Qed.

(** Marking a scooter as rented changes neither an id nor a price. *)
Lemma rented_scooter_id (objs : loc -> Scooter) (l s : loc) :
  scooter_id ((<[l := set_is_available false (objs l)]> objs) s) = scooter_id (objs s).
Proof.
  destruct (decide (l = s)) as [-> | Hne].
  - rewrite fn_lookup_insert. reflexivity.
  - rewrite fn_lookup_insert_ne by assumption. reflexivity.
Qed.

Lemma rented_scooter_cost (objs : loc -> Scooter) (l s : loc) (h : float) :
  calculate_rental_cost ((<[l := set_is_available false (objs l)]> objs) s) h
  = calculate_rental_cost (objs s) h.
Proof.
  destruct (decide (l = s)) as [-> | Hne].
  - rewrite fn_lookup_insert. apply calculate_rental_cost_set_is_available.
  - rewrite fn_lookup_insert_ne by assumption. reflexivity.
Qed.

(** A branch that raises returns the world it was given. *)
Ltac raised := left; split; [discriminate | reflexivity].

(** What a call of [process_rental_change] that returns has done: nothing,
    or the rewrite of the one record. *)
Lemma process_rental_change_cases fuel rental_id new_hours w r w' out :
  process_rental_change fuel rental_id new_hours w = Some (r, w', out) ->
  (r <> Ok true /\ w' = w)
  \/ exists rental station scooter,
       rentals w !! rental_id = Some rental
       /\ stations w !! rental.station_id rental = Some station
       /\ find_by_id (scooter_objs w) (scooters station) (rental.scooter_id rental)
          = Some scooter
       /\ r = Ok true
       /\ w' = with_rentals
                 (<[rental_id :=
                      {| rental.client_id := rental.client_id rental;
                         rental.station_id := rental.station_id rental;
                         rental.scooter_id := rental.scooter_id rental;
                         rental.hours := new_hours;
                         rental.cost :=
                           calculate_rental_cost (scooter_objs w scooter) new_hours |}]>
                    (rentals w)) w.
Proof.
  unfold process_rental_change.
  destruct (rentals w !! rental_id) as [rental |] eqn:Hr;
    [| intros [= <- <- <-]; raised].
  destruct (stations w !! rental.station_id rental) as [station |] eqn:Hs;
    [| intros [= <- <- <-]; raised].
  destruct (find_by_id _ _ _) as [scooter |] eqn:Hf;
    [| intros [= <- <- <-]; raised].
  destruct (handle_change _ _ _) as [[[] o] |]; [| | discriminate].
  - intros [= <- <- <-]. right. exists rental, station, scooter.
    repeat split; assumption.
  - intros [= <- <- <-]. raised.
Qed.

(** What [add_rental] has done: nothing, or one scooter marked as rented
    and one record stored with the price of that scooter. *)
Lemma add_rental_cases rental_id client_id station_id scooter_id hours w :
  let '(r, w', out) := add_rental rental_id client_id station_id scooter_id hours w in
  (r <> Ok tt /\ w' = w)
  \/ exists station scooter,
       stations w !! station_id = Some station
       /\ find_by_id (scooter_objs w) (scooters station) scooter_id = Some scooter
       /\ is_available (scooter_objs w scooter) = true
       /\ r = Ok tt
       /\ let objs' := <[scooter := set_is_available false (scooter_objs w scooter)]>
                         (scooter_objs w) in
          w' = with_rentals
                 (<[rental_id :=
                      {| rental.client_id := client_id;
                         rental.station_id := station_id;
                         rental.scooter_id := scooter_id;
                         rental.hours := hours;
                         rental.cost := calculate_rental_cost (objs' scooter) hours |}]>
                    (rentals w))
                 (with_scooter_objs objs' w).
Proof.
  unfold add_rental.
  destruct (stations w !! station_id) as [station |] eqn:Hs;
    [| raised].
  destruct (find_by_id _ _ _) as [scooter |] eqn:Hf;
    [| raised].
  destruct (is_available (scooter_objs w scooter)) eqn:Ha; simpl;
    [| raised].
  unfold rent_scooter. rewrite Hf, Ha. simpl.
  right. exists station, scooter. repeat split; assumption.
Qed.

(** C9.  For an existing rental whose station and scooter are found, an
    approved [process_rental_change] returns [True] and rewrites that
    record's hours to the requested value and its cost to the scooter's
    price for the new hours; the record's other fields, every other rental,
    the stations with their fleets, the clients and every scooter object
    (availability included) are as before. *)
Theorem process_rental_change_frame
    (fuel : nat) (w : World) (rental_id : string) (new_hours : float)
    (rental : rental.t) (station : RentalStation) (scooter : loc)
    (out : list output) :
  rentals w !! rental_id = Some rental ->
  stations w !! rental.station_id rental = Some station ->
  find_by_id (scooter_objs w) (scooters station) (rental.scooter_id rental)
  = Some scooter ->
  handle_change fuel w
    {| request.rental_id := rental_id;
       request.hours := new_hours;
       request.scooter := scooter;
       request.client_id := rental.client_id rental |} = Some (true, out) ->
  let cost := calculate_rental_cost (scooter_objs w scooter) new_hours in
  exists w',
    process_rental_change fuel rental_id new_hours w
    = Some (Ok true, w', out ++ [rental_changed rental_id new_hours cost])
    /\ rentals w' !! rental_id
       = Some {| rental.client_id := rental.client_id rental;
                 rental.station_id := rental.station_id rental;
                 rental.scooter_id := rental.scooter_id rental;
                 rental.hours := new_hours;
                 rental.cost := cost |}
    /\ (forall other, other <> rental_id -> rentals w' !! other = rentals w !! other)
    /\ stations w' = stations w
    /\ clients w' = clients w
    /\ scooter_objs w' = scooter_objs w
    /\ handler_objs w' = handler_objs w
    /\ _change_handler w' = _change_handler w.
Proof.
  intros Hr Hs Hf Hh cost. unfold process_rental_change.
  rewrite Hr, Hs, Hf, Hh. eexists. split; [reflexivity |].
  simpl. split; [apply lookup_insert_eq |].
  split; [| repeat split].
  intros other Hne. apply lookup_insert_ne. congruence.
Qed.

Lemma process_rental_change_frame_witness :
  exists w',
    process_rental_change 3 "RT001" 5 rented
    = Some (Ok true, w', [manager_approved "RT001" 675; rental_changed "RT001" 5 675])
    /\ rentals w' !! "RT001"
       = Some {| rental.client_id := "CL001";
                 rental.station_id := "ST001";
                 rental.scooter_id := "SC001";
                 rental.hours := 5;
                 rental.cost := 675 |}
    /\ (forall other, other <> "RT001" -> rentals w' !! other = rentals rented !! other)
    /\ stations w' = stations rented
    /\ clients w' = clients rented
    /\ scooter_objs w' = scooter_objs rented
    /\ handler_objs w' = handler_objs rented
    /\ _change_handler w' = _change_handler rented.
Proof.
  apply (process_rental_change_frame 3 rented "RT001" 5
           {| rental.client_id := "CL001";
              rental.station_id := "ST001";
              rental.scooter_id := "SC001";
              rental.hours := 2.5;
              rental.cost := 375 |}
           station1 0 [manager_approved "RT001" 675]);
    vm_compute; reflexivity.
Defined.

(** When the chain is the one set up at start, the approval is certain. *)
Lemma process_rental_change_set_up (n : nat) (w : World) (rental_id : string)
    (new_hours : float) (rental : rental.t) (station : RentalStation) (scooter : loc) :
  set_up w ->
  rentals w !! rental_id = Some rental ->
  stations w !! rental.station_id rental = Some station ->
  find_by_id (scooter_objs w) (scooters station) (rental.scooter_id rental)
  = Some scooter ->
  exists w' out, process_rental_change (3 + n) rental_id new_hours w = Some (Ok true, w', out).
Proof.
  intros Hw Hr Hs Hf. unfold process_rental_change.
  rewrite Hr, Hs, Hf, (handle_change_enough w _ n Hw).
  pose proof (chain_outcome_true (scooter_objs w)
                {| request.rental_id := rental_id;
                   request.hours := new_hours;
                   request.scooter := scooter;
                   request.client_id := rental.client_id rental |}) as Ht.
  destruct (chain_outcome _ _) as [b o]. simpl in Ht. subst b. eauto.
Qed.

Lemma rental_consistent_ext (w w' : World) (r : rental.t) :
  stations w' = stations w ->
  (forall s, scooter_id (scooter_objs w' s) = scooter_id (scooter_objs w s)) ->
  (forall s h, calculate_rental_cost (scooter_objs w' s) h
               = calculate_rental_cost (scooter_objs w s) h) ->
  rental_consistent w r -> rental_consistent w' r.
Proof.
  intros Hs Hid Hc (station & scooter & H1 & H2 & H3).
  exists station, scooter.
  rewrite Hs, (find_by_id_ext _ _ _ _ Hid), Hc. auto.
Qed.

(** [add_rental] stores a consistent record. *)
Lemma add_rental_establishes rental_id client_id station_id scooter_id hours w :
  (add_rental rental_id client_id station_id scooter_id hours w).1.1 = Ok tt ->
  exists r,
    rentals (add_rental rental_id client_id station_id scooter_id hours w).1.2
      !! rental_id = Some r
    /\ rental.hours r = hours
    /\ rental_consistent
         (add_rental rental_id client_id station_id scooter_id hours w).1.2 r.
Proof.
  pose proof (add_rental_cases rental_id client_id station_id scooter_id hours w) as H.
  destruct (add_rental _ _ _ _ _ _) as [[r w'] out]. simpl.
  destruct H as [[Hne _] | (station & scooter & Hs & Hf & Ha & _ & ->)];
    [intros ->; congruence | intros _].
  eexists. split; [apply lookup_insert_eq |]. split; [reflexivity |].
  exists station, scooter. simpl. repeat split; [assumption |].
  rewrite (find_by_id_ext (scooter_objs w)); [assumption |].
  intros s. apply rented_scooter_id.
Qed.

(** An approved [process_rental_change] leaves a consistent record. *)
Lemma process_rental_change_establishes fuel rental_id new_hours w w' out :
  process_rental_change fuel rental_id new_hours w = Some (Ok true, w', out) ->
  exists r,
    rentals w' !! rental_id = Some r
    /\ rental.hours r = new_hours
    /\ rental_consistent w' r.
Proof.
  intros H. apply process_rental_change_cases in H.
  destruct H as [[Hne _] | (rental & station & scooter & Hr & Hs & Hf & _ & ->)];
    [congruence |].
  eexists. split; [apply lookup_insert_eq |]. split; [reflexivity |].
  exists station, scooter. simpl. repeat split; assumption.
Qed.

Lemma step_consistent (w w' : World) :
  step w w' -> consistent w -> consistent w'.
Proof.
  intros Hstep Hc.
  destruct Hstep as [station w | cid name phone w | rid cid sid scid h w
                     | fuel rid h w r w' out H].
  - unfold add_station.
    destruct (stations w !! station_id station) eqn:E; simpl; [assumption |].
    intros rid r Hlook. destruct (Hc rid r Hlook) as (st & sc & H1 & H2 & H3).
    exists st, sc. simpl. repeat split; try assumption.
    rewrite lookup_insert_ne; [assumption |].
    intros Heq. rewrite Heq in E. congruence.
  - unfold register_client.
    destruct (clients w !! cid); simpl; [assumption |].
    intros rid r Hlook. destruct (Hc rid r Hlook) as (st & sc & H1 & H2 & H3).
    exists st, sc. simpl. repeat split; assumption.
  - pose proof (add_rental_establishes rid cid sid scid h w) as Hnew.
    pose proof (add_rental_cases rid cid sid scid h w) as Hcases.
    destruct (add_rental _ _ _ _ _ _) as [[r w'] out]. simpl in *.
    destruct Hcases as [[_ ->] | (station & scooter & Hs & Hf & Ha & -> & Hw')];
      [assumption |].
    destruct (Hnew eq_refl) as (r0 & Hr0 & _ & Hcons0).
    intros rid' r' Hlook.
    destruct (decide (rid' = rid)) as [-> | Hne]; [congruence |].
    subst w'. simpl in Hlook. rewrite lookup_insert_ne in Hlook by congruence.
    apply (rental_consistent_ext w); simpl;
      [reflexivity | intros; apply rented_scooter_id
       | intros; apply rented_scooter_cost | eapply Hc; eassumption].
  - destruct r as [[] |];
      try (apply process_rental_change_cases in H;
           destruct H as [[_ ->] | (? & ? & ? & _ & _ & _ & ? & _)];
           [assumption | discriminate]).
    pose proof (process_rental_change_establishes _ _ _ _ _ _ H)
      as (r0 & Hr0 & _ & Hcons0).
    apply process_rental_change_cases in H.
    destruct H as [[Hne _] | (rental & station & scooter & Hr & Hs & Hf & _ & Hw')];
      [congruence |].
    intros rid' r' Hlook.
    destruct (decide (rid' = rid)) as [-> | Hne]; [congruence |].
    subst w'. simpl in Hlook. rewrite lookup_insert_ne in Hlook by congruence.
    apply (rental_consistent_ext w); simpl;
      [reflexivity | reflexivity | reflexivity | eapply Hc; eassumption].
Qed.

Lemma reachable_consistent (w0 w : World) :
  rtc step w0 w -> consistent w0 -> consistent w.
Proof.
  induction 1 as [| w0 w1 w Hstep _ IH]; [auto |].
  intros Hc. apply IH. exact (step_consistent w0 w1 Hstep Hc).
Qed.

(** C10.  In every state reached from a system without rentals by calls of
    [add_rental] and [process_rental_change] (calls of [add_station] and
    [register_client] may come between them), the cost stored in each rental
    record is the price its scooter asks for the hours stored in the same
    record; a successful [add_rental] and an approved
    [process_rental_change] each leave the record they write in that state. *)
Theorem rental_cost_matches_hours :
  (forall w0 w, rentals w0 = ∅ -> rtc step w0 w -> consistent w)
  /\ (forall rental_id client_id station_id scooter_id hours w,
        (add_rental rental_id client_id station_id scooter_id hours w).1.1 = Ok tt ->
        exists r,
          rentals (add_rental rental_id client_id station_id scooter_id hours w).1.2
            !! rental_id = Some r
          /\ rental.hours r = hours
          /\ rental_consistent
               (add_rental rental_id client_id station_id scooter_id hours w).1.2 r)
  /\ (forall fuel rental_id new_hours w w' out,
        process_rental_change fuel rental_id new_hours w = Some (Ok true, w', out) ->
        exists r,
          rentals w' !! rental_id = Some r
          /\ rental.hours r = new_hours
          /\ rental_consistent w' r).
Proof.
  split; [| split].
  - intros w0 w Hempty Hreach. apply (reachable_consistent w0 w Hreach).
    intros rid r Hlook. rewrite Hempty, lookup_empty in Hlook. discriminate.
  - apply add_rental_establishes.
  - apply process_rental_change_establishes.
Qed.

Lemma rental_cost_matches_hours_witness : consistent changed.
Proof.
  apply (proj1 rental_cost_matches_hours stocked changed); [reflexivity |].
  eapply rtc_l;
    [apply (step_add_rental "RT001" "CL001" "ST001" "SC001" 2.5 stocked) |].
  eapply rtc_l;
    [apply (step_add_rental "RT002" "CL002" "ST002" "SC003" 1) |].
  eapply rtc_l; [| apply rtc_refl].
  apply (step_process_rental_change 3 "RT001" 5 rented (Ok true) changed
           [manager_approved "RT001" 675; rental_changed "RT001" 5 675]).
  reflexivity.
Defined.

End registry.

(** * Further properties *)

Import fleet examples invariants.

(** ** Scooters: order, registry and factory *)

Section scooter_facts.

Lemma ltb_asym (x y : float) : (x <? y)%float = true -> (y <? x)%float = false.
Proof.
  rewrite !ltb_spec. unfold SFltb.
  rewrite (SFcompare_antisym (Prim2SF x) (Prim2SF y)).
  destruct (SFcompare (Prim2SF x) (Prim2SF y)) as [[]|]; simpl; congruence.
Qed.

Lemma ltb_irrefl (x : float) : (x <? x)%float = false.
Proof.
  destruct (x <? x)%float eqn:E; [| reflexivity].
  rewrite (ltb_asym x x E) in E. discriminate.
Qed.

(** The comparison of scooters by [<] and [>] looks at the hourly rate only
    and is a strict order test: no scooter is below itself, and of
    [a < b], [b < a] at most one holds, [a > b] being the same as [b < a]. *)
Theorem scooter_order_strict (a b : Scooter) :
  lt a a = false
  /\ gt a b = lt b a
  /\ (lt a b = true -> lt b a = false /\ gt a b = false)
  /\ (hourly_rate a = hourly_rate b -> lt a b = false /\ gt a b = false).
Proof.
  unfold lt, gt. repeat split.
  - apply ltb_irrefl.
  - apply ltb_asym; assumption.
  - apply ltb_asym; assumption.
  - rewrite H. apply ltb_irrefl.
  - rewrite H. apply ltb_irrefl.
Qed.

Lemma scooter_order_strict_witness :
  lt scooter3 scooter1 = true /\ lt scooter1 scooter3 = false
  /\ gt scooter3 scooter1 = false.
Proof.
  assert (H : lt scooter3 scooter1 = true) by reflexivity.
  destruct (proj1 (proj2 (proj2 (scooter_order_strict scooter3 scooter1))) H)
    as [H1 H2].
  repeat split; assumption.
Defined.

Lemma lower_ascii_idem (c : ascii) : lower_ascii (lower_ascii c) = lower_ascii c.
Proof. destruct c as [[] [] [] [] [] [] [] []]; reflexivity. Qed.

Lemma lower_idem (s : string) : lower (lower s) = lower s.
Proof.
  induction s as [| c s IH]; simpl; [reflexivity |].
  rewrite lower_ascii_idem, IH. reflexivity.
Qed.

Lemma get_class_Some (scooter_type : string) (c : py_class) :
  get_class scooter_type = Some c <->
  (lower scooter_type = "city" /\ c = cls_CityScooter)
  \/ (lower scooter_type = "off_road" /\ c = cls_OffRoadScooter)
  \/ (lower scooter_type = "foldable" /\ c = cls_FoldableScooter).
Proof.
  unfold get_class. rewrite registry_eq.
  rewrite !lookup_insert, lookup_empty.
  repeat case_decide; split;
    try (intros [= <-]); try (intros [[E ->] | [[E ->] | [E ->]]]);
    try discriminate; try congruence; auto.
Qed.

(** The registry knows the three concrete classes and nothing else: a tag
    is resolved exactly when its lower-case form is "city", "off_road" or
    "foldable", and the abstract base class is never handed out. *)
Theorem registry_exact (scooter_type : string) (c : py_class) :
  (get_class scooter_type = Some c <->
   (lower scooter_type = "city" /\ c = cls_CityScooter)
   \/ (lower scooter_type = "off_road" /\ c = cls_OffRoadScooter)
   \/ (lower scooter_type = "foldable" /\ c = cls_FoldableScooter))
  /\ get_class scooter_type <> Some cls_Scooter
  /\ get_class (lower scooter_type) = get_class scooter_type.
Proof.
  split; [apply get_class_Some |]. split.
  - intros H. apply get_class_Some in H.
    destruct H as [[_ H] | [[_ H] | [_ H]]]; discriminate.
  - unfold get_class. rewrite lower_idem. reflexivity.
Qed.

Lemma registry_exact_witness : get_class "FoldABLE" = Some cls_FoldableScooter.
Proof.
  apply (proj1 (registry_exact "FoldABLE" cls_FoldableScooter)).
  right; right. split; reflexivity.
Defined.

(** The factory does not look at the case of the tag when it succeeds: a
    call returns a scooter exactly when the call with the lower-case tag
    returns it. *)
Theorem create_scooter_any_case (scooter_type scooter_id model : string)
    (battery_level hourly_rate : float) (kwargs : gmap string value) (s : Scooter) :
  create_scooter scooter_type scooter_id model battery_level hourly_rate kwargs = Ok s
  <-> create_scooter (lower scooter_type) scooter_id model battery_level
        hourly_rate kwargs = Ok s.
Proof.
  unfold create_scooter, get_class. rewrite lower_idem.
  destruct (_registry !! lower scooter_type); [| split; discriminate].
  destruct (first_missing _ _); [split; discriminate | reflexivity].
Qed.

Lemma create_scooter_any_case_witness :
  create_scooter "off_road" "SC002" "Segway Dirt eS2" 80 200
    {[ "tire_type" := VStr "Knobby" ]} = Ok scooter2.
Proof.
  apply (proj1 (create_scooter_any_case "OFF_ROAD" "SC002" "Segway Dirt eS2" 80 200
                  {[ "tire_type" := VStr "Knobby" ]} scooter2)).
  vm_compute. reflexivity.
Defined.

Lemma only_key (kwargs : gmap string value) (param : string) (v : value) :
  dom kwargs ⊆ ({[ param ]} : gset string) ->
  kwargs !! param = Some v ->
  kwargs = {[ param := v ]}.
Proof.
  intros Hdom Hv. apply map_eq. intros k.
  destruct (decide (k = param)) as [-> | Hne].
  - rewrite Hv, lookup_singleton_eq. reflexivity.
  - rewrite lookup_singleton_ne by congruence.
    apply not_elem_of_dom. intros Hin. apply Hdom in Hin.
    apply elem_of_singleton in Hin. contradiction.
Qed.

(** Whenever the factory returns a scooter, the tag is registered, the
    keyword arguments are exactly the one the class requires, and the
    scooter is the one the class's constructor builds from the arguments:
    it carries the id, model, battery level and rate it was given and is
    available. *)
Theorem create_scooter_returns (scooter_type scooter_id model : string)
    (battery_level hourly_rate : float) (kwargs : gmap string value) (s : Scooter) :
  create_scooter scooter_type scooter_id model battery_level hourly_rate kwargs = Ok s ->
  (exists param ctor v,
      registered (lower scooter_type) param ctor
      /\ kwargs = {[ param := v ]}
      /\ s = ctor scooter_id model battery_level hourly_rate v)
  /\ scooter_module.scooter_id s = scooter_id
  /\ scooter_module.model s = model
  /\ scooter_module.battery_level s = battery_level
  /\ scooter_module.hourly_rate s = hourly_rate
  /\ is_available s = true.
Proof.
  unfold create_scooter. intros H.
  destruct (get_class scooter_type) as [c |] eqn:Hc; [| discriminate].
  destruct (first_missing _ _); [discriminate |].
  unfold instantiate in H.
  destruct (own_param c) as [[param mk] |] eqn:Hown; [| discriminate].
  destruct (bool_decide _) eqn:Hdom; [| discriminate].
  apply bool_decide_eq_true_1 in Hdom.
  destruct (kwargs !! param) as [v |] eqn:Hv; [| discriminate].
  injection H as <-.
  pose proof (only_key kwargs param v Hdom Hv) as Hk.
  split; [| repeat split].
  apply get_class_Some in Hc.
  destruct Hc as [[E ->] | [[E ->] | [E ->]]]; injection Hown as <- <-;
    rewrite E; eexists _, _, v; (split; [constructor | split; [exact Hk | reflexivity]]).
Qed.

Lemma create_scooter_returns_witness :
  is_available scooter3 = true /\ scooter_module.hourly_rate scooter3 = 120%float.
Proof.
  pose proof (create_scooter_returns "foldable" "SC003" "Ninebot ES2" 100 120
                {[ "weight" := VFloat 12.5 ]} scooter3) as H.
  destruct H as (_ & _ & _ & _ & Hr & Ha); [vm_compute; reflexivity |].
  split; [exact Ha | exact Hr].
Defined.


End scooter_facts.

(** ** Stations: lookup, fleet and renting *)

Section station_facts.

Lemma find_by_id_app (objs : loc -> Scooter) (l k : list loc) (id : string) :
  find_by_id objs (l ++ k) id
  = match find_by_id objs l id with
    | Some s => Some s
    | None => find_by_id objs k id
    end.
Proof.
  induction l as [| x l IH]; simpl; [reflexivity |].
  destruct (String.eqb _ _); [reflexivity | exact IH].
Qed.

Lemma find_by_id_Some (objs : loc -> Scooter) (l : list loc) (id : string) (s : loc) :
  find_by_id objs l id = Some s -> s ∈ l /\ scooter_id (objs s) = id.
Proof.
  induction l as [| x l IH]; simpl; [discriminate |].
  destruct (String.eqb _ _) eqn:E.
  - intros [= <-]. split; [left | apply String.eqb_eq; exact E].
  - intros H. destruct (IH H) as [Hin Hid]. split; [right; exact Hin | exact Hid].
Qed.

Lemma find_by_id_None (objs : loc -> Scooter) (l : list loc) (id : string) :
  find_by_id objs l id = None <-> forall x, x ∈ l -> scooter_id (objs x) <> id.
Proof.
  induction l as [| y l IH]; simpl.
  - split; [intros _ x Hx; inversion Hx | reflexivity].
  - destruct (String.eqb _ _) eqn:E.
    + split; [discriminate |]. intros H. exfalso.
      apply (H y); [left | apply String.eqb_eq; exact E].
    + rewrite IH. apply String.eqb_neq in E. split.
      * intros H x Hx. inversion Hx; subst; [exact E | apply H; assumption].
      * intros H x Hx. apply H. right. exact Hx.
Qed.

Lemma find_by_id_None_ids (objs : loc -> Scooter) (l : list loc) (id : string) :
  find_by_id objs l id = None <-> id ∉ map (fun s => scooter_id (objs s)) l.
Proof.
  rewrite find_by_id_None. induction l as [| y l IH]; simpl.
  - split; [intros _ H; inversion H | intros _ x Hx; inversion Hx].
  - rewrite not_elem_of_cons, <- IH. split.
    + intros H. split; [intros ->; apply (H y); [left | reflexivity] |].
      intros x Hx. apply H. right. exact Hx.
    + intros [Hne H] x Hx. inversion Hx; subst; [congruence | apply H; assumption].
Qed.

(** The lookup loop of [rent_scooter], [remove_scooter], [add_rental] and
    [process_rental_change] answers with the first scooter of the fleet
    that carries the id, and with nothing exactly when no scooter of the
    fleet carries it. *)
Theorem find_by_id_first (objs : loc -> Scooter) (l : list loc) (id : string) :
  match find_by_id objs l id with
  | Some s =>
    exists before after,
      l = before ++ s :: after
      /\ scooter_id (objs s) = id
      /\ forall x, x ∈ before -> scooter_id (objs x) <> id
  | None => forall x, x ∈ l -> scooter_id (objs x) <> id
  end.
Proof.
  induction l as [| y l IH]; simpl.
  - intros x Hx. inversion Hx.
  - destruct (String.eqb _ _) eqn:E.
    + exists [], l. repeat split; [apply String.eqb_eq; exact E |].
      intros x Hx. inversion Hx.
    + apply String.eqb_neq in E.
      destruct (find_by_id objs l id) as [s |].
      * destruct IH as (before & after & -> & Hid & Hb).
        exists (y :: before), after. repeat split; [exact Hid |].
        intros x Hx. inversion Hx; subst; [exact E | apply Hb; assumption].
      * intros x Hx. inversion Hx; subst; [exact E | apply IH; assumption].
Qed.

Lemma existsb_find_by_id (objs : loc -> Scooter) (l : list loc) (id : string) :
  existsb (fun s => String.eqb (scooter_id (objs s)) id) l
  = match find_by_id objs l id with Some _ => true | None => false end.
Proof.
  induction l as [| y l IH]; simpl; [reflexivity |].
  destruct (String.eqb _ _); [reflexivity | exact IH].
Qed.

Lemma with_scooters_same (self : RentalStation) :
  with_scooters (scooters self) self = self.
Proof. destruct self. reflexivity. Qed.

(** [add_scooter] checks the capacity first and the id second, and a
    refused scooter leaves the station as it was: a station whose fleet has
    reached the capacity refuses every scooter, a station that holds a
    scooter with the same id refuses the scooter, and otherwise the scooter
    goes to the end of the fleet. *)
Theorem add_scooter_outcomes (scooter : loc) (self : RentalStation)
    (objs : loc -> Scooter) :
  ((capacity self <= Z.of_nat (length (scooters self)))%Z ->
   add_scooter scooter self objs
   = (Raises (StationFull (station_id self) (capacity self)), self, []))
  /\ ((Z.of_nat (length (scooters self)) < capacity self)%Z ->
      forall other,
        find_by_id objs (scooters self) (scooter_id (objs scooter)) = Some other ->
        add_scooter scooter self objs
        = (Raises (ScooterAlreadyAtStation (scooter_id (objs scooter))), self, []))
  /\ ((Z.of_nat (length (scooters self)) < capacity self)%Z ->
      find_by_id objs (scooters self) (scooter_id (objs scooter)) = None ->
      add_scooter scooter self objs
      = (Returns tt,
         with_scooters (scooters self ++ [scooter]) self,
         [log_added (model (objs scooter)) (station_id self);
          notify_ready (model (objs scooter)) (station_id self)])).
Proof.
  unfold add_scooter. rewrite existsb_find_by_id. repeat split.
  - intros H. apply Z.leb_le in H. rewrite H. reflexivity.
  - intros H other Hf. apply Z.leb_gt in H. rewrite H, Hf. reflexivity.
  - intros H Hf. apply Z.leb_gt in H. rewrite H, Hf. reflexivity.
Qed.

Lemma add_scooter_outcomes_witness :
  add_scooter 0 station2 objs
  = (Returns tt, with_scooters [2; 0] station2,
     [log_added "Xiaomi Mi Electric Scooter Pro" "ST002";
      notify_ready "Xiaomi Mi Electric Scooter Pro" "ST002"])
  /\ add_scooter 2 station2 objs
     = (Raises (ScooterAlreadyAtStation "SC003"), station2, [])
  /\ add_scooter 0 (with_scooters [2; 0; 1] station2) objs
     = (Raises (StationFull "ST002" 3), with_scooters [2; 0; 1] station2, []).
Proof.
  split; [| split].
  - apply (proj2 (proj2 (add_scooter_outcomes 0 station2 objs)));
      [reflexivity | reflexivity].
  - apply (proj1 (proj2 (add_scooter_outcomes 2 station2 objs)) eq_refl 2).
    reflexivity.
  - apply (proj1 (add_scooter_outcomes 0 (with_scooters [2; 0; 1] station2) objs)).
    discriminate.
Defined.

Lemma add_scooter_inv (scooter : loc) (self self' : RentalStation)
    (objs : loc -> Scooter) out :
  add_scooter scooter self objs = (Returns tt, self', out) ->
  (Z.of_nat (length (scooters self)) < capacity self)%Z
  /\ find_by_id objs (scooters self) (scooter_id (objs scooter)) = None
  /\ self' = with_scooters (scooters self ++ [scooter]) self.
Proof.
  unfold add_scooter. rewrite existsb_find_by_id.
  destruct (capacity self <=? _)%Z eqn:Hc; [discriminate |].
  destruct (find_by_id _ _ _); [discriminate |].
  intros [= <- _]. apply Z.leb_gt in Hc. auto.
Qed.

(** A scooter that has been added is found by its id, and the scooters that
    were found before are found as before: adding never hides a scooter of
    the fleet. *)
Theorem add_scooter_then_find (scooter : loc) (self self' : RentalStation)
    (objs : loc -> Scooter) out :
  add_scooter scooter self objs = (Returns tt, self', out) ->
  find_by_id objs (scooters self') (scooter_id (objs scooter)) = Some scooter
  /\ (forall id s, find_by_id objs (scooters self) id = Some s ->
                   find_by_id objs (scooters self') id = Some s)
  /\ (forall id, id <> scooter_id (objs scooter) ->
                 find_by_id objs (scooters self') id
                 = find_by_id objs (scooters self) id).
Proof.
  intros H. apply add_scooter_inv in H. destruct H as (_ & Hnone & ->).
  simpl. repeat split.
  - rewrite find_by_id_app, Hnone. simpl. rewrite String.eqb_refl. reflexivity.
  - intros id s Hs. rewrite find_by_id_app, Hs. reflexivity.
  - intros id Hne. rewrite find_by_id_app.
    destruct (find_by_id objs (scooters self) id); [reflexivity |].
    simpl. apply String.eqb_neq in Hne. rewrite String.eqb_sym, Hne. reflexivity.
Qed.

Lemma add_scooter_then_find_witness :
  find_by_id objs [2; 0] "SC001" = Some 0 /\ find_by_id objs [2; 0] "SC003" = Some 2.
Proof.
  destruct (add_scooter_then_find 0 station2 (with_scooters [2; 0] station2) objs
              [log_added "Xiaomi Mi Electric Scooter Pro" "ST002";
               notify_ready "Xiaomi Mi Electric Scooter Pro" "ST002"] eq_refl)
    as (H1 & H2 & _).
  split; [exact H1 | apply (H2 "SC003" 2); reflexivity].
Defined.

(** [add_scooter] keeps a fleet well formed: if the ids of the fleet are
    pairwise different and the fleet is within the capacity, the same
    holds after the call, whether it returned or raised. *)
Theorem add_scooter_keeps_fleet (scooter : loc) (self : RentalStation)
    (objs : loc -> Scooter) :
  distinct_ids objs (scooters self) ->
  (Z.of_nat (length (scooters self)) <= capacity self)%Z ->
  distinct_ids objs (scooters (add_scooter scooter self objs).1.2)
  /\ (Z.of_nat (length (scooters (add_scooter scooter self objs).1.2))
      <= capacity self)%Z
  /\ capacity (add_scooter scooter self objs).1.2 = capacity self.
Proof.
  intros Hd Hc. unfold add_scooter. rewrite existsb_find_by_id.
  destruct (capacity self <=? _)%Z eqn:Hfull; simpl; [auto |].
  destruct (find_by_id _ _ _) eqn:Hf; simpl; [auto |].
  apply Z.leb_gt in Hfull. repeat split.
  - unfold distinct_ids in *. rewrite map_app. simpl.
    apply NoDup_app. split; [exact Hd |]. split; [| apply NoDup_singleton].
    intros id Hin Hin'. apply list_elem_of_singleton in Hin'. subst id.
    apply find_by_id_None_ids in Hf. contradiction.
  - rewrite length_app. simpl. lia.
Qed.

Lemma add_scooter_keeps_fleet_witness :
  distinct_ids objs (scooters (add_scooter 0 station2 objs).1.2).
Proof.
  apply (add_scooter_keeps_fleet 0 station2 objs).
  - unfold distinct_ids. simpl. apply NoDup_singleton.
  - simpl. lia.
Defined.

End station_facts.

Section fleet_facts.

Lemma list_remove_in (x y : loc) (l : list loc) :
  y ∈ list_remove x l -> y ∈ l.
Proof.
  induction l as [| z l IH]; simpl; [auto |].
  destruct (Nat.eqb z x).
  - intros H. right. exact H.
  - intros H. inversion H; subst; [left | right; auto].
Qed.


Lemma list_remove_absent (x : loc) (l : list loc) :
  x ∉ l -> list_remove x l = l.
Proof.
  induction l as [| z l IH]; simpl; [reflexivity |].
  intros H. apply not_elem_of_cons in H. destruct H as [Hne Hl].
  destruct (Nat.eqb z x) eqn:E; [apply Nat.eqb_eq in E; congruence |].
  rewrite IH by assumption. reflexivity.
Qed.

Lemma list_remove_last (x : loc) (l : list loc) :
  x ∉ l -> list_remove x (l ++ [x]) = l.
Proof.
  induction l as [| z l IH]; simpl.
  - intros _. rewrite Nat.eqb_refl. reflexivity.
  - intros H. apply not_elem_of_cons in H. destruct H as [Hne Hl].
    destruct (Nat.eqb z x) eqn:E; [apply Nat.eqb_eq in E; congruence |].
    rewrite IH by assumption. reflexivity.
Qed.





(** Removing the scooter that was just added gives back the scooter and
    the station as it was before the addition. *)
Theorem add_then_remove_scooter (scooter : loc) (self self' : RentalStation)
    (objs : loc -> Scooter) out :
  add_scooter scooter self objs = (Returns tt, self', out) ->
  remove_scooter (scooter_id (objs scooter)) self' objs
  = (Returns scooter, self,
     [log_removed (model (objs scooter)) (station_id self)]).
Proof.
  intros H. apply add_scooter_inv in H. destruct H as (_ & Hnone & ->).
  unfold remove_scooter. simpl.
  rewrite find_by_id_app, Hnone. simpl. rewrite String.eqb_refl.
  rewrite list_remove_last.
  - destruct self. reflexivity.
  - intros Hin. apply find_by_id_None with (x := scooter) in Hnone;
      [congruence | exact Hin].
Qed.

Lemma add_then_remove_scooter_witness :
  remove_scooter "SC001" (with_scooters [2; 0] station2) objs
  = (Returns 0, station2, [log_removed "Xiaomi Mi Electric Scooter Pro" "ST002"]).
Proof.
  apply (add_then_remove_scooter 0 station2 (with_scooters [2; 0] station2) objs
           [log_added "Xiaomi Mi Electric Scooter Pro" "ST002";
            notify_ready "Xiaomi Mi Electric Scooter Pro" "ST002"]).
  reflexivity.
Defined.

Lemma rent_scooter_inv (scooter_id : string) (hours : float)
    (self : RentalStation) (objs objs' : loc -> Scooter) cost out :
  rent_scooter scooter_id hours self objs = (Ok cost, objs', out) ->
  exists s,
    find_by_id objs (scooters self) scooter_id = Some s
    /\ is_available (objs s) = true
    /\ objs' = <[s := set_is_available false (objs s)]> objs
    /\ cost = calculate_rental_cost (objs s) hours.
Proof.
  unfold rent_scooter.
  destruct (find_by_id _ _ _) as [s |] eqn:Hf; [| discriminate].
  destruct (is_available (objs s)) eqn:Ha; simpl; [| discriminate].
  intros [= <- <- _]. exists s. repeat split; [assumption |].
  apply rented_scooter_cost.
Qed.

(** A successful [rent_scooter] has found an available scooter; it charges
    that scooter's price for the hours, marks that scooter unavailable and
    changes nothing else: its other fields and every other scooter are as
    before.  A call that raises changes no scooter and logs nothing. *)
Theorem rent_scooter_effect (scooter_id : string) (hours : float)
    (self : RentalStation) (objs : loc -> Scooter) :
  (forall cost objs' out,
      rent_scooter scooter_id hours self objs = (Ok cost, objs', out) ->
      exists s,
        find_by_id objs (scooters self) scooter_id = Some s
        /\ is_available (objs s) = true
        /\ cost = calculate_rental_cost (objs s) hours
        /\ objs' s = set_is_available false (objs s)
        /\ (forall other, other <> s -> objs' other = objs other))
  /\ (forall e objs' out,
         rent_scooter scooter_id hours self objs = (Raise e, objs', out) ->
         objs' = objs /\ out = []
         /\ (e = ValueError (ScooterNotAtStation scooter_id)
             \/ e = ValueError (ScooterUnavailable scooter_id))).
Proof.
  split.
  - intros cost objs' out H.
    destruct (rent_scooter_inv _ _ _ _ _ _ _ H) as (s & Hf & Ha & -> & ->).
    exists s. repeat split; try assumption.
    + apply fn_lookup_insert.
    + intros other Hne. apply fn_lookup_insert_ne. congruence.
  - unfold rent_scooter. intros e objs' out.
    destruct (find_by_id _ _ _) as [s |]; [| intros [= <- <- <-]; auto].
    destruct (is_available (objs s)); simpl; [discriminate |].
    intros [= <- <- <-]. auto.
Qed.

Lemma rent_scooter_effect_witness :
  exists s,
    find_by_id objs (scooters station1) "SC001" = Some s
    /\ is_available (objs s) = true
    /\ 300%float = calculate_rental_cost (objs s) 2.
Proof.
  destruct (proj1 (rent_scooter_effect "SC001" 2 station1 objs)
              300%float (<[0 := set_is_available false scooter1]> objs)
              [log_rented "Xiaomi Mi Electric Scooter Pro" 2 300; notify_rented "Xiaomi Mi Electric Scooter Pro" 300]
              eq_refl)
    as (s & H1 & H2 & H3 & _).
  exists s. repeat split; assumption.
Defined.

(** A scooter cannot be rented twice: after a successful [rent_scooter],
    every further [rent_scooter] of the same id at the same station raises
    the "unavailable" error and changes nothing. *)
Theorem rent_scooter_twice (scooter_id : string) (hours hours' : float)
    (self : RentalStation) (objs objs' : loc -> Scooter) cost out :
  rent_scooter scooter_id hours self objs = (Ok cost, objs', out) ->
  rent_scooter scooter_id hours' self objs'
  = (Raise (ValueError (ScooterUnavailable scooter_id)), objs', []).
Proof.
  intros H. destruct (rent_scooter_inv _ _ _ _ _ _ _ H) as (s & Hf & Ha & -> & _).
  unfold rent_scooter.
  rewrite (find_by_id_ext objs) by (intros; apply rented_scooter_id).
  rewrite Hf, fn_lookup_insert. reflexivity.
Qed.

Lemma rent_scooter_twice_witness :
  rent_scooter "SC001" 7 station1 (<[0 := set_is_available false scooter1]> objs)
  = (Raise (ValueError (ScooterUnavailable "SC001")),
     <[0 := set_is_available false scooter1]> objs, []).
Proof.
  apply (rent_scooter_twice "SC001" 2 7 station1 objs
           (<[0 := set_is_available false scooter1]> objs) 300%float
           [log_rented "Xiaomi Mi Electric Scooter Pro" 2 300; notify_rented "Xiaomi Mi Electric Scooter Pro" 300]).
  reflexivity.
Defined.

(** [get_available_scooters] lists, in fleet order, the scooters of the
    fleet that are available; after a successful [rent_scooter] it lists
    what it listed before without the rented scooter. *)
Theorem available_after_rent (scooter_id : string) (hours : float)
    (self : RentalStation) (objs objs' : loc -> Scooter) cost out :
  rent_scooter scooter_id hours self objs = (Ok cost, objs', out) ->
  exists s,
    find_by_id objs (scooters self) scooter_id = Some s
    /\ (s ∈ get_available_scooters objs self)
    /\ (s ∉ get_available_scooters objs' self)
    /\ get_available_scooters objs' self
       = filter (fun x => x <> s) (get_available_scooters objs self).
Proof.
  intros H. destruct (rent_scooter_inv _ _ _ _ _ _ _ H) as (s & Hf & Ha & -> & _).
  exists s. unfold get_available_scooters.
  split; [exact Hf |]. split; [| split].
  - apply list_elem_of_filter. split; [exact Ha |].
    apply (find_by_id_Some objs _ _ _ Hf).
  - rewrite list_elem_of_filter, fn_lookup_insert. simpl. intros [Hc _].
    discriminate.
  - rewrite list_filter_filter. apply list_filter_iff. intros x.
    destruct (decide (x = s)) as [-> | Hne].
    + rewrite fn_lookup_insert. simpl. split; [discriminate | intros [Hc _]; congruence].
    + rewrite fn_lookup_insert_ne by congruence. split; [auto | intros [_ Hx]; exact Hx].
Qed.

Lemma available_after_rent_witness :
  get_available_scooters (<[0 := set_is_available false scooter1]> objs) station1 = [1].
Proof.
  destruct (available_after_rent "SC001" 2 station1 objs
              (<[0 := set_is_available false scooter1]> objs) 300%float
              [log_rented "Xiaomi Mi Electric Scooter Pro" 2 300; notify_rented "Xiaomi Mi Electric Scooter Pro" 300]
              eq_refl)
    as (s & Hf & _ & _ & Heq).
  injection Hf as <-. rewrite Heq. reflexivity.
Defined.

End fleet_facts.

(** ** Handlers in any arrangement *)

Section handler_facts.

(** Whatever the handlers and their links, a call of [handle] that returns
    [True] has printed exactly one approval line, for the request's rental
    id (with the price, when the Manager approves), and a call that returns
    [False] has printed nothing. *)
Theorem handle_prints (fuel : nat) (handlers : list Handler)
    (objs : loc -> Scooter) (self : loc) (request : request.t)
    (b : bool) (out : list output) :
  handle fuel handlers objs self request = Some (b, out) ->
  if b then
    out = [operator_approved (request.rental_id request)]
    \/ out = [manager_approved (request.rental_id request)
                (calculate_rental_cost (objs (request.scooter request))
                   (request.hours request))]
    \/ out = [admin_approved (request.rental_id request)]
  else out = [].
Proof.
  revert self. induction fuel as [| fuel IH]; intros self; simpl; [discriminate |].
  destruct (handlers !! self) as [h |]; [| discriminate].
  assert (Hd : match _next_handler h with
               | Some next => handle fuel handlers objs next request
               | None => Some (false, [])
               end = Some (b, out) ->
               if b then
                 out = [operator_approved (request.rental_id request)]
                 \/ out = [manager_approved (request.rental_id request)
                             (calculate_rental_cost (objs (request.scooter request))
                                (request.hours request))]
                 \/ out = [admin_approved (request.rental_id request)]
               else out = []).
  { destruct (_next_handler h) as [next |]; [apply IH |].
    intros [= <- <-]. reflexivity. }
  destruct (class_of h).
  - destruct (_ <? 4)%float; [intros [= <- <-]; auto | exact Hd].
  - destruct (_ <=? 1000)%float; [intros [= <- <-]; auto | exact Hd].
  - intros [= <- <-]. auto.
Qed.

Lemma handle_prints_witness :
  [manager_approved "RT010" 427.5]
  = [operator_approved (request.rental_id five_hours)]
  \/ [manager_approved "RT010" 427.5]
     = [manager_approved (request.rental_id five_hours)
          (calculate_rental_cost (city95 (request.scooter five_hours))
             (request.hours five_hours))]
  \/ [manager_approved "RT010" 427.5]
     = [admin_approved (request.rental_id five_hours)].
Proof.
  apply (handle_prints 2 (handler_objs stocked) city95 0 five_hours true
           [manager_approved "RT010" 427.5]).
  reflexivity.
Defined.

(** The chain can deny when it does not end in an Admin: an Operator
    without successor returns [False] for every request that is not under
    four hours, and a Manager without successor returns [False] for every
    request whose price is not at most 1000. *)
Theorem handler_without_successor_denies (handlers : list Handler)
    (objs : loc -> Scooter) (self : loc) (request : request.t) (n : nat) :
  (handlers !! self = Some (mkHandler OperatorHandler None) ->
   handle (S n) handlers objs self request
   = Some (if (request.hours request <? 4)%float
           then (true, [operator_approved (request.rental_id request)])
           else (false, [])))
  /\ (handlers !! self = Some (mkHandler ManagerHandler None) ->
      handle (S n) handlers objs self request
      = Some (if (calculate_rental_cost (objs (request.scooter request))
                    (request.hours request) <=? 1000)%float
              then (true,
                    [manager_approved (request.rental_id request)
                       (calculate_rental_cost (objs (request.scooter request))
                          (request.hours request))])
              else (false, []))).
Proof.
  split; intros H; simpl; rewrite H; simpl.
  - destruct (_ <? 4)%float; reflexivity.
  - destruct (_ <=? 1000)%float; reflexivity.
Qed.

Lemma handler_without_successor_denies_witness :
  handle 1 lone_operator objs 0 fifty_hours = Some (false, [])
  /\ handle 1 lone_manager objs 0 fifty_hours = Some (false, []).
Proof.
  split.
  - apply (proj1 (handler_without_successor_denies lone_operator objs 0 fifty_hours 0)).
    reflexivity.
  - apply (proj2 (handler_without_successor_denies lone_manager objs 0 fifty_hours 0)).
    reflexivity.
Defined.

(** [set_next] does not check for cycles: a handler that is its own
    successor never returns for a request it does not approve itself, an
    Operator for hours not under four and a Manager for a price not at most
    1000 (in Python the recursion ends in a [RecursionError]). *)
Theorem handler_cycle_never_returns (handlers : list Handler)
    (objs : loc -> Scooter) (self : loc) (request : request.t) :
  (handlers !! self = Some (mkHandler OperatorHandler (Some self)) ->
   (request.hours request <? 4)%float = false ->
   forall fuel, handle fuel handlers objs self request = None)
  /\ (handlers !! self = Some (mkHandler ManagerHandler (Some self)) ->
      (calculate_rental_cost (objs (request.scooter request))
         (request.hours request) <=? 1000)%float = false ->
      forall fuel, handle fuel handlers objs self request = None).
Proof.
  split; intros H Hdecline fuel;
    induction fuel as [| fuel IH]; simpl; try reflexivity;
    rewrite H; simpl; rewrite Hdecline; exact IH.
Qed.

Lemma handler_cycle_never_returns_witness :
  handle 1000 looped objs 0 fifty_hours = None.
Proof.
  apply (proj1 (handler_cycle_never_returns looped objs 0 fifty_hours));
    reflexivity.
Defined.

(** [set_next] returns the handler it was given, not the one it was called
    on: in [a.set_next(b).set_next(c)] the second call links [b] to [c], so
    [a] leads to [b] and [b] to [c], with the classes of all handlers and
    the links of all other handlers as they were. *)
Theorem set_next_chains (a b c : loc) (handlers : list Handler) (ha hb : Handler) :
  handlers !! a = Some ha ->
  handlers !! b = Some hb ->
  a <> b ->
  let '(r1, h1) := set_next a b handlers in
  let '(r2, h2) := set_next r1 c h1 in
  r1 = b /\ r2 = c
  /\ h2 !! a = Some (mkHandler (class_of ha) (Some b))
  /\ h2 !! b = Some (mkHandler (class_of hb) (Some c))
  /\ (forall l, l <> a -> l <> b -> h2 !! l = handlers !! l)
  /\ length h2 = length handlers.
Proof.
  intros Ha Hb Hne. unfold set_next. repeat split.
  - rewrite list_lookup_alter_ne by congruence.
    rewrite list_lookup_alter_eq, Ha. reflexivity.
  - rewrite list_lookup_alter_eq, list_lookup_alter_ne by congruence.
    rewrite Hb. reflexivity.
  - intros l Hla Hlb. rewrite !list_lookup_alter_ne by congruence. reflexivity.
  - rewrite !length_alter. reflexivity.
Qed.

Lemma set_next_chains_witness :
  (set_next 1 2 (set_next 0 1 unlinked).2).2 !! 0
  = Some (mkHandler OperatorHandler (Some 1))
  /\ (set_next 1 2 (set_next 0 1 unlinked).2).2 !! 1
     = Some (mkHandler ManagerHandler (Some 2)).
Proof.
  pose proof (set_next_chains 0 1 2 unlinked
                (mkHandler OperatorHandler None)
                (mkHandler ManagerHandler None)
                eq_refl eq_refl) as H.
  simpl in H. destruct H as (_ & _ & H3 & H4 & _); [discriminate |].
  split; [exact H3 | exact H4].
Defined.

End handler_facts.

(** ** Registry: stations, clients and the error paths *)

Section registry_facts.

(** [add_station] refuses a station whose id is taken and then changes
    nothing; otherwise the station is found under its id afterwards.  In
    both cases every station that was registered stays registered as it
    was, and rentals, clients and scooters are untouched. *)
Theorem add_station_effect (station : RentalStation) (w : World) :
  (forall old, stations w !! station_id station = Some old ->
               add_station station w
               = (Raise (ValueError (StationExists (station_id station))), w))
  /\ (stations w !! station_id station = None ->
      (add_station station w).1 = Ok tt
      /\ stations (add_station station w).2 !! station_id station = Some station)
  /\ (forall id st, stations w !! id = Some st ->
                    stations (add_station station w).2 !! id = Some st)
  /\ rentals (add_station station w).2 = rentals w
  /\ clients (add_station station w).2 = clients w
  /\ scooter_objs (add_station station w).2 = scooter_objs w.
Proof.
  unfold add_station. repeat split.
  - intros old H. rewrite H. reflexivity.
  - rewrite H. reflexivity.
  - rewrite H. simpl. apply lookup_insert_eq.
  - intros id st H.
    destruct (stations w !! station_id station) eqn:E; simpl; [exact H |].
    rewrite lookup_insert_ne; [exact H | congruence].
  - destruct (stations w !! station_id station); reflexivity.
  - destruct (stations w !! station_id station); reflexivity.
  - destruct (stations w !! station_id station); reflexivity.
Qed.

Lemma add_station_effect_witness :
  add_station station1 stocked = (Raise (ValueError (StationExists "ST001")), stocked).
Proof.
  apply (proj1 (add_station_effect station1 stocked) station1). reflexivity.
Defined.

(** [register_client] refuses a client id that is taken and then changes
    nothing; otherwise the client is stored with the given name and phone.
    In both cases every client that was registered keeps its entry, and
    stations, rentals and scooters are untouched. *)
Theorem register_client_effect (client_id name phone : string) (w : World) :
  (forall old, clients w !! client_id = Some old ->
               register_client client_id name phone w
               = (Raise (ValueError (ClientExists client_id)), w))
  /\ (clients w !! client_id = None ->
      (register_client client_id name phone w).1 = Ok tt
      /\ clients (register_client client_id name phone w).2 !! client_id
         = Some (mkClient name phone))
  /\ (forall id c, clients w !! id = Some c ->
                   clients (register_client client_id name phone w).2 !! id = Some c)
  /\ stations (register_client client_id name phone w).2 = stations w
  /\ rentals (register_client client_id name phone w).2 = rentals w
  /\ scooter_objs (register_client client_id name phone w).2 = scooter_objs w.
Proof.
  unfold register_client. repeat split.
  - intros old H. rewrite H. reflexivity.
  - rewrite H. reflexivity.
  - rewrite H. simpl. apply lookup_insert_eq.
  - intros id c H.
    destruct (clients w !! client_id) eqn:E; simpl; [exact H |].
    rewrite lookup_insert_ne; [exact H | congruence].
  - destruct (clients w !! client_id); reflexivity.
  - destruct (clients w !! client_id); reflexivity.
  - destruct (clients w !! client_id); reflexivity.
Qed.

Lemma register_client_effect_witness :
  register_client "CL001" "Pyotr Ivanov" "+70000000000" stocked
  = (Raise (ValueError (ClientExists "CL001")), stocked).
Proof.
  apply (proj1 (register_client_effect "CL001" "Pyotr Ivanov" "+70000000000" stocked)
           (mkClient "Ivan Petrov" "+79991234567")).
  reflexivity.
Defined.

(** [process_rental_change] reports an unknown rental, then a station that
    is gone, then a scooter that is gone from the station's fleet, in this
    order and before the approval chain is asked (so also when the chain
    would not return); whenever it raises, the state is as before and
    nothing has been printed. *)
Theorem process_rental_change_raises (fuel : nat) (rental_id : string)
    (new_hours : float) (w : World) :
  (rentals w !! rental_id = None ->
   process_rental_change fuel rental_id new_hours w
   = Some (Raise (ValueError (RentalNotFound rental_id)), w, []))
  /\ (forall r, rentals w !! rental_id = Some r ->
                stations w !! rental.station_id r = None ->
                process_rental_change fuel rental_id new_hours w
                = Some (Raise (ValueError (StationNotFound (rental.station_id r))), w, []))
  /\ (forall r station,
         rentals w !! rental_id = Some r ->
         stations w !! rental.station_id r = Some station ->
         (forall x, x ∈ scooters station ->
                    scooter_id (scooter_objs w x) <> rental.scooter_id r) ->
         process_rental_change fuel rental_id new_hours w
         = Some (Raise (ValueError (ScooterNotFound (rental.scooter_id r)
                                      (rental.station_id r))), w, []))
  /\ (forall e w' out,
         process_rental_change fuel rental_id new_hours w = Some (Raise e, w', out) ->
         w' = w /\ out = []).
Proof.
  unfold process_rental_change. repeat split.
  - intros H. rewrite H. reflexivity.
  - intros r Hr Hs. rewrite Hr, Hs. reflexivity.
  - intros r station Hr Hs Hf. apply find_by_id_None in Hf.
    rewrite Hr, Hs, Hf. reflexivity.
  - revert H. destruct (rentals w !! rental_id) as [r |]; [| congruence].
    destruct (stations w !! _) as [station |]; [| congruence].
    destruct (find_by_id _ _ _) as [s |]; [| congruence].
    destruct (handle_change _ _ _) as [[[] o] |]; congruence.
  - revert H. destruct (rentals w !! rental_id) as [r |]; [| congruence].
    destruct (stations w !! _) as [station |]; [| congruence].
    destruct (find_by_id _ _ _) as [s |]; [| congruence].
    destruct (handle_change _ _ _) as [[[] o] |]; congruence.
Qed.

Lemma process_rental_change_raises_witness :
  process_rental_change 0 "RT404" 5 rented
  = Some (Raise (ValueError (RentalNotFound "RT404")), rented, []).
Proof.
  apply (proj1 (process_rental_change_raises 0 "RT404" 5 rented)).
  vm_compute. reflexivity.
Defined.

(** [process_rental_change] neither creates nor deletes a rental, and it
    never changes the client, station or scooter a record names: whatever
    the outcome, the same rental ids are present afterwards and each
    record keeps these three fields. *)
Theorem process_rental_change_keeps_records (fuel : nat) (rental_id : string)
    (new_hours : float) (w w' : World) r out :
  process_rental_change fuel rental_id new_hours w = Some (r, w', out) ->
  forall id,
    match rentals w !! id, rentals w' !! id with
    | Some old, Some new =>
      rental.client_id new = rental.client_id old
      /\ rental.station_id new = rental.station_id old
      /\ rental.scooter_id new = rental.scooter_id old
    | None, None => True
    | _, _ => False
    end.
Proof.
  intros H id. apply process_rental_change_cases in H.
  destruct H as [[_ ->] | (rental & station & scooter & Hr & _ & _ & _ & ->)].
  - destruct (rentals w !! id); auto.
  - simpl. destruct (decide (id = rental_id)) as [-> | Hne].
    + rewrite Hr, lookup_insert_eq. auto.
    + rewrite lookup_insert_ne by congruence. destruct (rentals w !! id); auto.
Qed.

Lemma process_rental_change_keeps_records_witness :
  match rentals rented !! "RT001", rentals changed !! "RT001" with
  | Some old, Some new =>
    rental.client_id new = rental.client_id old
    /\ rental.station_id new = rental.station_id old
    /\ rental.scooter_id new = rental.scooter_id old
  | None, None => True
  | _, _ => False
  end.
Proof.
  apply (process_rental_change_keeps_records 3 "RT001" 5 rented changed (Ok true)
           [manager_approved "RT001" 675; rental_changed "RT001" 5 675]).
  reflexivity.
Defined.

(** With the chain set up at start, the last change wins: changing a rental
    to [h1] and then to [h2] returns, prints and leaves exactly what
    changing it to [h2] at once does. *)
Theorem process_rental_change_last_wins (n m : nat) (w : World)
    (rental_id : string) (h1 h2 : float)
    (rental : rental.t) (station : RentalStation) (scooter : loc) :
  set_up w ->
  rentals w !! rental_id = Some rental ->
  stations w !! rental.station_id rental = Some station ->
  find_by_id (scooter_objs w) (scooters station) (rental.scooter_id rental)
  = Some scooter ->
  exists w1 out1,
    process_rental_change (3 + n) rental_id h1 w = Some (Ok true, w1, out1)
    /\ process_rental_change (3 + m) rental_id h2 w1
       = process_rental_change (3 + m) rental_id h2 w.
Proof.
  intros Hw Hr Hs Hf. unfold process_rental_change at 1.
  rewrite Hr, Hs, Hf, (handle_change_enough w _ n Hw).
  pose proof (chain_outcome_true (scooter_objs w)
                {| request.rental_id := rental_id;
                   request.hours := h1;
                   request.scooter := scooter;
                   request.client_id := rental.client_id rental |}) as Ht.
  destruct (chain_outcome _ _) as [b o]. simpl in Ht. subst b.
  eexists _, _. split; [reflexivity |].
  unfold process_rental_change. simpl.
  rewrite lookup_insert_eq, Hr. simpl. rewrite Hs, Hf.
  assert (Hw1 : set_up (with_rentals
                          (<[rental_id :=
                               {| rental.client_id := rental.client_id rental;
                                  rental.station_id := rental.station_id rental;
                                  rental.scooter_id := rental.scooter_id rental;
                                  rental.hours := h1;
                                  rental.cost :=
                                    calculate_rental_cost (scooter_objs w scooter) h1 |}]>
                             (rentals w)) w)) by exact Hw.
  rewrite (handle_change_enough _ _ m Hw1), (handle_change_enough w _ m Hw).
  simpl.
  pose proof (chain_outcome_true (scooter_objs w)
                {| request.rental_id := rental_id;
                   request.hours := h2;
                   request.scooter := scooter;
                   request.client_id := rental.client_id rental |}) as Ht2.
  destruct (chain_outcome _ _) as [b2 o2]. simpl in Ht2. subst b2.
  unfold with_rentals. simpl. rewrite insert_insert_eq. reflexivity.
Qed.

Lemma process_rental_change_last_wins_witness :
  exists w1 out1,
    process_rental_change 3 "RT001" 9 rented = Some (Ok true, w1, out1)
    /\ process_rental_change 3 "RT001" 5 w1 = process_rental_change 3 "RT001" 5 rented.
Proof.
  assert (Hw : set_up rented) by (exists []; reflexivity).
  apply (process_rental_change_last_wins 0 0 rented "RT001" 9 5
           {| rental.client_id := "CL001";
              rental.station_id := "ST001";
              rental.scooter_id := "SC001";
              rental.hours := 2.5;
              rental.cost := 375 |}
           station1 0 Hw); vm_compute; reflexivity.
Defined.

End registry_facts.

(** ** Registry: renting through the system *)

Section rental_facts.

(** [add_rental] succeeds exactly when the station is registered, its fleet
    holds a scooter with the id and that scooter is available: neither the
    client id nor the rental id is checked.  When it raises, the error is
    one of "station not found", "scooter not found" and "scooter
    unavailable", the state is as before and nothing has been logged. *)
Theorem add_rental_outcome (rental_id client_id station_id scooter_id : string)
    (hours : float) (w : World) :
  ((add_rental rental_id client_id station_id scooter_id hours w).1.1 = Ok tt
   <-> exists station s,
         stations w !! station_id = Some station
         /\ find_by_id (scooter_objs w) (scooters station) scooter_id = Some s
         /\ is_available (scooter_objs w s) = true)
  /\ (forall e,
         (add_rental rental_id client_id station_id scooter_id hours w).1.1 = Raise e ->
         (add_rental rental_id client_id station_id scooter_id hours w).1.2 = w
         /\ (add_rental rental_id client_id station_id scooter_id hours w).2 = []
         /\ (e = ValueError (StationNotFound station_id)
             \/ e = ValueError (ScooterNotFound scooter_id station_id)
             \/ e = ValueError (ScooterUnavailable scooter_id))).
Proof.
  unfold add_rental, rent_scooter.
  destruct (stations w !! station_id) as [station |] eqn:Hs; simpl.
  2:{ split; [split; [discriminate | intros (? & ? & ? & _); discriminate] |].
      intros e [= <-]. auto. }
  destruct (find_by_id _ _ _) as [s |] eqn:Hf; simpl.
  2:{ split; [split; [discriminate | intros (? & ? & [= <-] & ? & _); congruence] |].
      intros e [= <-]. auto. }
  destruct (is_available (scooter_objs w s)) eqn:Ha; simpl.
  - split; [split; [intros _; exists station, s; auto | reflexivity] | discriminate].
  - split;
      [split; [discriminate | intros (? & ? & [= <-] & ? & ?); congruence] |].
    intros e [= <-]. auto.
Qed.

Lemma add_rental_outcome_witness :
  (add_rental "RT007" "nobody" "ST001" "SC002" 3 rented).1.1 = Ok tt.
Proof.
  apply (proj1 (add_rental_outcome "RT007" "nobody" "ST001" "SC002" 3 rented)).
  exists station1, 1. repeat split; reflexivity.
Defined.



(** A scooter cannot be rented twice through the system: after a
    successful [add_rental], every further [add_rental] for the same
    station and scooter id raises "scooter unavailable" and changes
    nothing, whatever its rental id, client and hours. *)
Theorem add_rental_twice (rental_id client_id station_id scooter_id : string)
    (hours : float) (w : World) (rental_id' client_id' : string) (hours' : float) :
  (add_rental rental_id client_id station_id scooter_id hours w).1.1 = Ok tt ->
  add_rental rental_id' client_id' station_id scooter_id hours'
    (add_rental rental_id client_id station_id scooter_id hours w).1.2
  = (Raise (ValueError (ScooterUnavailable scooter_id)),
     (add_rental rental_id client_id station_id scooter_id hours w).1.2, []).
Proof.
  pose proof (add_rental_cases rental_id client_id station_id scooter_id hours w) as H.
  destruct (add_rental rental_id _ _ _ _ _) as [[r w'] out]. simpl.
  destruct H as [[Hne _] | (station & s & Hs & Hf & Ha & _ & ->)];
    [intros ->; congruence | intros _].
  unfold add_rental. simpl. rewrite Hs.
  rewrite (find_by_id_ext (scooter_objs w)) by (intros; apply rented_scooter_id).
  rewrite Hf, fn_lookup_insert. reflexivity.
Qed.

Lemma add_rental_twice_witness :
  add_rental "RT003" "CL002" "ST001" "SC001" 4
    (add_rental "RT001" "CL001" "ST001" "SC001" 2.5 stocked).1.2
  = (Raise (ValueError (ScooterUnavailable "SC001")),
     (add_rental "RT001" "CL001" "ST001" "SC001" 2.5 stocked).1.2, []).
Proof.
  apply (add_rental_twice "RT001" "CL001" "ST001" "SC001" 2.5 stocked
           "RT003" "CL002" 4).
  reflexivity.
Defined.

End rental_facts.

(** ** Registry: what holds in every reachable state *)

Section reachable_facts.

(** What one step may do to a scooter object. *)
Lemma step_scooter (w w' : World) (l : loc) :
  step w w' ->
  scooter_id (scooter_objs w' l) = scooter_id (scooter_objs w l)
  /\ model (scooter_objs w' l) = model (scooter_objs w l)
  /\ battery_level (scooter_objs w' l) = battery_level (scooter_objs w l)
  /\ hourly_rate (scooter_objs w' l) = hourly_rate (scooter_objs w l)
  /\ variant (scooter_objs w' l) = variant (scooter_objs w l)
  /\ (is_available (scooter_objs w' l) = true ->
      is_available (scooter_objs w l) = true).
Proof.
  intros Hstep.
  destruct Hstep as [station w | cid name phone w | rid cid sid scid h w
                     | fuel rid h w r w' out H].
  - unfold add_station. destruct (stations w !! _); simpl; auto 10.
  - unfold register_client. destruct (clients w !! _); simpl; auto 10.
  - pose proof (add_rental_cases rid cid sid scid h w) as Hc.
    destruct (add_rental _ _ _ _ _ _) as [[r w'] out]. simpl.
    destruct Hc as [[_ ->] | (station & s & _ & _ & Ha & _ & ->)]; [auto 10 |].
    simpl. destruct (decide (s = l)) as [-> | Hne].
    + rewrite fn_lookup_insert. simpl. repeat split. discriminate.
    + rewrite fn_lookup_insert_ne by assumption. auto 10.
  - apply process_rental_change_cases in H.
    destruct H as [[_ ->] | (? & ? & ? & _ & _ & _ & _ & ->)]; simpl; auto 10.
Qed.

(** No call of the system gives a scooter back: along every run of
    [add_station], [register_client], [add_rental] and
    [process_rental_change] a scooter keeps its id, model, battery level,
    rate and variant, and a scooter that is unavailable stays unavailable. *)
Theorem scooters_only_lose_availability (w w' : World) (l : loc) :
  rtc step w w' ->
  scooter_id (scooter_objs w' l) = scooter_id (scooter_objs w l)
  /\ model (scooter_objs w' l) = model (scooter_objs w l)
  /\ battery_level (scooter_objs w' l) = battery_level (scooter_objs w l)
  /\ hourly_rate (scooter_objs w' l) = hourly_rate (scooter_objs w l)
  /\ variant (scooter_objs w' l) = variant (scooter_objs w l)
  /\ (is_available (scooter_objs w l) = false ->
      is_available (scooter_objs w' l) = false).
Proof.
  induction 1 as [w | w w1 w' Hstep _ IH].
  - auto 10.
  - destruct (step_scooter w w1 l Hstep) as (H1 & H2 & H3 & H4 & H5 & H6).
    destruct IH as (I1 & I2 & I3 & I4 & I5 & I6).
    repeat split; try congruence.
    intros Hf. apply I6.
    destruct (is_available (scooter_objs w1 l)) eqn:E; [| reflexivity].
    rewrite (H6 eq_refl) in Hf. discriminate.
Qed.

Lemma scooters_only_lose_availability_witness :
  is_available (scooter_objs changed 0) = false
  /\ hourly_rate (scooter_objs changed 0) = 150%float.
Proof.
  assert (Hrun : rtc step rented changed).
  { eapply rtc_l; [| apply rtc_refl].
    apply (step_process_rental_change 3 "RT001" 5 rented (Ok true) changed
             [manager_approved "RT001" 675; rental_changed "RT001" 5 675]).
    reflexivity. }
  destruct (scooters_only_lose_availability rented changed 0 Hrun)
    as (_ & _ & _ & Hr & _ & Ha).
  split; [apply Ha; reflexivity | rewrite Hr; reflexivity].
Defined.

Lemma step_rented_unavailable (w w' : World) :
  step w w' -> rented_unavailable w -> rented_unavailable w'.
Proof.
  intros Hstep Hinv. pose proof (fun l => step_scooter w w' l Hstep) as Hsc.
  assert (Hfind : forall l id,
             find_by_id (scooter_objs w') l id = find_by_id (scooter_objs w) l id).
  { intros l id. apply find_by_id_ext. intros s. apply (Hsc s). }
  assert (Hkeep : forall s, is_available (scooter_objs w s) = false ->
                            is_available (scooter_objs w' s) = false).
  { intros s Hs. destruct (is_available (scooter_objs w' s)) eqn:E; [| reflexivity].
    destruct (Hsc s) as (_ & _ & _ & _ & _ & H). rewrite (H E) in Hs. discriminate. }
  clear Hsc.
  destruct Hstep as [station w | cid name phone w | rid cid sid scid h w
                     | fuel rid h w r w' out H].
  - intros id r Hr.
    assert (Hr' : rentals w !! id = Some r).
    { revert Hr. unfold add_station. destruct (stations w !! _); auto. }
    destruct (Hinv id r Hr') as (st & s & H1 & H2 & H3).
    exists st, s. rewrite Hfind. repeat split; [| exact H2 | apply Hkeep; exact H3].
    unfold add_station. destruct (stations w !! station_id station) eqn:E; simpl;
      [exact H1 |].
    rewrite lookup_insert_ne; [exact H1 | congruence].
  - intros id r Hr.
    assert (Hr' : rentals w !! id = Some r).
    { revert Hr. unfold register_client. destruct (clients w !! _); auto. }
    destruct (Hinv id r Hr') as (st & s & H1 & H2 & H3).
    exists st, s. rewrite Hfind. repeat split; [| exact H2 | apply Hkeep; exact H3].
    unfold register_client. destruct (clients w !! cid); exact H1.
  - pose proof (add_rental_cases rid cid sid scid h w) as Hc.
    destruct (add_rental _ _ _ _ _ _) as [[r w'] out]. simpl in *.
    destruct Hc as [[_ ->] | (station & s & Hs & Hf & Ha & _ & ->)]; [exact Hinv |].
    intros id r0 Hr. simpl in Hr.
    destruct (decide (id = rid)) as [-> | Hne].
    + rewrite lookup_insert_eq in Hr. injection Hr as <-.
      exists station, s. simpl. repeat split; [exact Hs | |].
      * rewrite <- Hf. apply (Hfind (scooters station) scid).
      * rewrite fn_lookup_insert. reflexivity.
    + rewrite lookup_insert_ne in Hr by congruence.
      destruct (Hinv id r0 Hr) as (st & s0 & H1 & H2 & H3).
      exists st, s0. repeat split; [exact H1 | | apply Hkeep; exact H3].
      rewrite <- H2. apply (Hfind (scooters st)).
  - apply process_rental_change_cases in H.
    destruct H as [[_ ->] | (rental & station & s & Hr & Hs & Hf & _ & ->)];
      [exact Hinv |].
    intros id r0 Hr0. simpl in Hr0.
    destruct (decide (id = rid)) as [-> | Hne].
    + rewrite lookup_insert_eq in Hr0. injection Hr0 as <-.
      destruct (Hinv rid rental Hr) as (st & s0 & H1 & H2 & H3).
      exists st, s0. simpl. auto.
    + rewrite lookup_insert_ne in Hr0 by congruence.
      destruct (Hinv id r0 Hr0) as (st & s0 & H1 & H2 & H3).
      exists st, s0. simpl. auto.
Qed.

(** In every state reached from a system without rentals, each rental
    record names a registered station whose fleet holds a scooter with the
    record's scooter id, and that scooter is unavailable. *)
Theorem rented_scooters_unavailable (w0 w : World) :
  rentals w0 = ∅ -> rtc step w0 w -> rented_unavailable w.
Proof.
  intros Hempty Hrun.
  assert (H0 : rented_unavailable w0).
  { intros id r Hr. rewrite Hempty, lookup_empty in Hr. discriminate. }
  clear Hempty. induction Hrun as [| w0 w1 w Hstep _ IH]; [exact H0 |].
  apply IH. exact (step_rented_unavailable w0 w1 Hstep H0).
Qed.

Lemma rented_scooters_unavailable_witness : rented_unavailable rented.
Proof.
  apply (rented_scooters_unavailable stocked rented); [reflexivity |].
  eapply rtc_l;
    [apply (step_add_rental "RT001" "CL001" "ST001" "SC001" 2.5 stocked) |].
  eapply rtc_l; [| apply rtc_refl].
  apply (step_add_rental "RT002" "CL002" "ST002" "SC003" 1).
Defined.

End reachable_facts.

Section reachable_changes.

Lemma step_handlers (w w' : World) :
  step w w' ->
  handler_objs w' = handler_objs w /\ _change_handler w' = _change_handler w.
Proof.
  intros Hstep.
  destruct Hstep as [station w | cid name phone w | rid cid sid scid h w
                     | fuel rid h w r w' out H].
  - unfold add_station. destruct (stations w !! _); auto.
  - unfold register_client. destruct (clients w !! _); auto.
  - pose proof (add_rental_cases rid cid sid scid h w) as Hc.
    destruct (add_rental _ _ _ _ _ _) as [[r w'] out]. simpl.
    destruct Hc as [[_ ->] | (? & ? & _ & _ & _ & _ & ->)]; auto.
  - apply process_rental_change_cases in H.
    destruct H as [[_ ->] | (? & ? & ? & _ & _ & _ & _ & ->)]; auto.
Qed.

Lemma reachable_set_up (w w' : World) :
  rtc step w w' -> set_up w -> set_up w'.
Proof.
  induction 1 as [| w w1 w' Hstep _ IH]; [auto |].
  intros [hs Hw]. apply IH. exists hs.
  destruct (step_handlers w w1 Hstep) as [-> ->]. exact Hw.
Qed.

(** Every rental the system holds can be changed: in a state reached from a
    freshly set-up system without rentals, [process_rental_change] on a
    stored rental id raises none of its three errors and returns [True],
    for any new duration. *)
Theorem stored_rental_can_be_changed (w0 w : World) (rental_id : string)
    (new_hours : float) (n : nat) :
  set_up w0 ->
  rentals w0 = ∅ ->
  rtc step w0 w ->
  is_Some (rentals w !! rental_id) ->
  exists w' out,
    process_rental_change (3 + n) rental_id new_hours w = Some (Ok true, w', out).
Proof.
  intros Hw0 Hempty Hrun [r Hr].
  assert (Hc : consistent w).
  { apply (reachable_consistent w0 w Hrun).
    intros id r0 H0. rewrite Hempty, lookup_empty in H0. discriminate. }
  destruct (Hc rental_id r Hr) as (station & s & Hs & Hf & _).
  apply (process_rental_change_set_up n w rental_id new_hours r station s);
    [apply (reachable_set_up w0 w Hrun Hw0) | assumption ..].
Qed.

Lemma stored_rental_can_be_changed_witness :
  exists w' out, process_rental_change 3 "RT002" 48 rented = Some (Ok true, w', out).
Proof.
  apply (stored_rental_can_be_changed stocked rented "RT002" 48 0).
  - exists []. reflexivity.
  - reflexivity.
  - eapply rtc_l;
      [apply (step_add_rental "RT001" "CL001" "ST001" "SC001" 2.5 stocked) |].
    eapply rtc_l; [| apply rtc_refl].
    apply (step_add_rental "RT002" "CL002" "ST002" "SC003" 1).
  - eexists. reflexivity.
Defined.

End reachable_changes.
